(** * Talk2SQL front-end: dashboard, onboarding and auth-context logic

    A shallow embedding of the logic-bearing parts of the React client:
    the three Dashboard variants, the OperationSelector table, the
    OnboardingPage persistence and the AuthProvider start-up read,
    followed by the properties stated about them. *)

From Stdlib Require Import ZArith List String Ascii Bool Lia DecimalString.
From stdpp Require Import base strings gmap.
Import ListNotations.

Set Warnings "-register-all".

(** ** The JavaScript fragment the components rely on *)

Module JS.

(** JavaScript strings are sequences of code units.  The model covers the
    code units 0..255, one [ascii] per code unit. *)

(** The characters [String.prototype.trim] and [parseInt] skip:
    TAB, LF, VT, FF, CR, SPACE and NBSP (the white space and line
    terminators below U+0100). *)
Definition isWhiteSpace (c : ascii) : bool :=
  let n := nat_of_ascii c in
  (n =? 9)%nat || (n =? 10)%nat || (n =? 11)%nat || (n =? 12)%nat
  || (n =? 13)%nat || (n =? 32)%nat || (n =? 160)%nat.

Fixpoint trimStart (s : string) : string :=
  match s with
  | String c s' => if isWhiteSpace c then trimStart s' else s
  | EmptyString => EmptyString
  end.

Fixpoint trimEnd (s : string) : string :=
  match s with
  | EmptyString => EmptyString
  | String c s' =>
      match trimEnd s' with
      | EmptyString => if isWhiteSpace c then EmptyString else String c EmptyString
      | t => String c t
      end
  end.

(** [s.trim()] *)
Definition trim (s : string) : string := trimEnd (trimStart s).

(** [s === ''] *)
Definition isEmpty (s : string) : bool :=
  match s with EmptyString => true | _ => false end.

(** Value of a character as a digit in radix up to 36. *)
Definition digitValue (c : ascii) : option Z :=
  let n := Z.of_nat (nat_of_ascii c) in
  if (48 <=? n)%Z && (n <=? 57)%Z then Some (n - 48)%Z
  else if (97 <=? n)%Z && (n <=? 122)%Z then Some (n - 87)%Z
  else if (65 <=? n)%Z && (n <=? 90)%Z then Some (n - 55)%Z
  else None.

(** Numbers: NaN or an integer.  An integer stands for the mathematical
    value; an engine rounds it to a double above 2^53, which changes neither
    its sign nor its position relative to the small constants the code
    compares it with. *)
Inductive Num : Type :=
| NaN
| Int (z : Z).

Definition isNaN (n : Num) : bool :=
  match n with NaN => true | Int _ => false end.

(** [Math.min(a, b)] and [Math.max(a, b)]: NaN if either argument is. *)
Definition Math_min (a b : Num) : Num :=
  match a, b with
  | Int x, Int y => Int (Z.min x y)
  | _, _ => NaN
  end.

Definition Math_max (a b : Num) : Num :=
  match a, b with
  | Int x, Int y => Int (Z.max x y)
  | _, _ => NaN
  end.

(** The longest prefix of radix-[R] digits, read as a number; [acc] is
    [None] until a digit has been seen. *)
Fixpoint parseDigits (R : Z) (s : string) (acc : option Z) : option Z :=
  match s with
  | String c s' =>
      match digitValue c with
      | Some d =>
          if (d <? R)%Z
          then parseDigits R s'
                 (Some (R * match acc with Some a => a | None => 0 end + d)%Z)
          else acc
      | None => acc
      end
  | EmptyString => acc
  end.

(** A leading sign, and the rest. *)
Definition splitSign (s : string) : Z * string :=
  match s with
  | String "-" r => ((-1)%Z, r)
  | String "+" r => (1%Z, r)
  | _ => (1%Z, s)
  end.

(** The rest after a leading [0x] or [0X]. *)
Definition stripHexPrefix (s : string) : option string :=
  match s with
  | String "0" (String "x" r) => Some r
  | String "0" (String "X" r) => Some r
  | _ => None
  end.

(** [parseInt(input, radix)]; [radix = None] is a call without the second
    argument. *)
Definition parseInt (input : string) (radix : option Z) : Num :=
  let '(sign, S1) := splitSign (trimStart input) in
  let R0 := match radix with Some r => r | None => 0%Z end in
  if negb (R0 =? 0)%Z && ((R0 <? 2)%Z || (36 <? R0)%Z) then NaN
  else
    let stripPrefix := (R0 =? 0)%Z || (R0 =? 16)%Z in
    let R1 := if (R0 =? 0)%Z then 10%Z else R0 in
    let '(R, S2) :=
      match (if stripPrefix then stripHexPrefix S1 else None) with
      | Some r => (16%Z, r)
      | None => (R1, S1)
      end in
    match parseDigits R S2 None with
    | Some m => Int (sign * m)
    | None => NaN
    end.

(** [n.toString()] *)
Definition Num_toString (n : Num) : string :=
  match n with
  | NaN => "NaN"
  | Int z => NilZero.string_of_int (Z.to_int z)
  end.

(** JavaScript values as they come out of [JSON.parse] or object literals.
    Numbers are NaN and the integer-valued ones; none of the code below
    does arithmetic on a number received from outside. *)
Inductive JsVal : Type :=
| JUndefined
| JNull
| JBool (b : bool)
| JNum (n : Num)
| JStr (s : string)
| JArr (items : list JsVal)
| JObj (fields : list (string * JsVal)).

(** ToBoolean, the test behind [if (v)], [!v], [a || b] and [a && b]. *)
Definition truthy (v : JsVal) : bool :=
  match v with
  | JUndefined | JNull => false
  | JBool b => b
  | JNum NaN => false
  | JNum (Int z) => negb (z =? 0)%Z
  | JStr s => negb (isEmpty s)
  | JArr _ | JObj _ => true
  end.

(** [a || b] *)
Definition or_else (a b : JsVal) : JsVal := if truthy a then a else b.

(** The value of a property, [undefined] if there is none.  An object
    lists each of its keys once. *)
Fixpoint lookupField (k : string) (fields : list (string * JsVal)) : JsVal :=
  match fields with
  | [] => JUndefined
  | (k', v) :: rest => if String.eqb k k' then v else lookupField k rest
  end.

(** [v.k] for a property name [k] that no prototype defines: [None] is the
    TypeError raised on [null] and [undefined]. *)
Definition getProp (v : JsVal) (k : string) : option JsVal :=
  match v with
  | JUndefined | JNull => None
  | JObj fields => Some (lookupField k fields)
  | _ => Some JUndefined
  end.

(** [v?.k] *)
Definition getPropOpt (v : JsVal) (k : string) : JsVal :=
  match getProp v k with Some x => x | None => JUndefined end.

(** [v?.[0]] *)
Definition getIndex0Opt (v : JsVal) : JsVal :=
  match v with
  | JArr (x :: _) => x
  | JStr (String c _) => JStr (String c EmptyString)
  | JObj fields => lookupField "0" fields
  | _ => JUndefined
  end.

(** [typeof v === 'object'] *)
Definition typeofObject (v : JsVal) : bool :=
  match v with
  | JNull | JArr _ | JObj _ => true
  | _ => false
  end.

(** [v === 'literal'] *)
Definition strictEqStr (v : JsVal) (lit : string) : bool :=
  match v with
  | JStr s => String.eqb s lit
  | _ => false
  end.

(** ToString, as applied by template literals and by [new Error(v)]. *)
Fixpoint ToString (v : JsVal) : string :=
  match v with
  | JUndefined => "undefined"
  | JNull => "null"
  | JBool true => "true"
  | JBool false => "false"
  | JNum n => Num_toString n
  | JStr s => s
  | JArr items =>
      let elem x := match x with JUndefined | JNull => "" | _ => ToString x end in
      (fix join (l : list JsVal) : string :=
         match l with
         | [] => ""
         | [x] => elem x
         | x :: rest => elem x +:+ "," +:+ join rest
         end) items
  | JObj _ => "[object Object]"
  end.

(** A thrown value, as far as the handlers look at it: they read
    [err.message] only. *)
Inductive Thrown : Type :=
| ThrownError (message : string)
| ThrownNullRead.

(** Outcome of an expression that may throw. *)
Inductive Completion (A : Type) : Type :=
| Normal (a : A)
| Throw (e : Thrown).
Arguments Normal {A} a.
Arguments Throw {A} e.

(** What the host supplies: the build-time API base URL, [JSON.parse]
    (which throws a SyntaxError on malformed text) and the message text the
    engine gives to the TypeError for reading a property of [null]. *)
Record Host : Type := {
  VITE_API_URL : option string;
  JSON_parse : string -> Completion JsVal;
  nullReadMessage : string
}.

(** [err.message] *)
Definition message (h : Host) (e : Thrown) : string :=
  match e with
  | ThrownError m => m
  | ThrownNullRead => nullReadMessage h
  end.

(** [import.meta.env.VITE_API_URL || 'http://localhost:8000'] *)
Definition apiUrl (h : Host) : string :=
  match VITE_API_URL h with
  | Some u => if isEmpty u then "http://localhost:8000" else u
  | None => "http://localhost:8000"
  end.

(** [storage.getItem(k) || dflt] *)
Definition getItemOr (storage : gmap string string) (k dflt : string) : string :=
  match storage !! k with
  | Some v => if isEmpty v then dflt else v
  | None => dflt
  end.

(** A [fetch] call: URL and the object handed to [JSON.stringify]. *)
Record Request : Type := {
  url : string;
  method : string;
  body : list (string * JsVal)
}.

(** What [JSON.stringify] makes of an object whose values are strings and
    numbers: properties whose value is [undefined] are left out and NaN is
    written as [null]. *)
Definition sentFields (payload : list (string * JsVal)) : list (string * JsVal) :=
  map (fun kv => match snd kv with JNum NaN => (fst kv, JNull) | _ => kv end)
    (List.filter (fun kv => match snd kv with JUndefined => false | _ => true end)
       payload).

(** How a [fetch] settles: rejected, or resolved with [response.ok] and
    the outcome of [response.json()]. *)
Inductive FetchOutcome : Type :=
| NetworkFailure (e : Thrown)
| Response (ok : bool) (json : Completion JsVal).

End JS.

(** ** Dashboard: what the three variants of the page have word for word *)

Module DashboardShared.
Import JS.

(** The guard [if (!input.trim())] at the head of [handleRunQuery]. *)
Definition inputIsBlank (input : string) : bool := isEmpty (trim input).

(** The [if (!response.ok)] block: the error body is read with
    [response.json().catch(() => ({}))] and
    [new Error(errorData.detail || errorData.message || 'Failed to process query')]
    is thrown. *)
Definition failedResponse (json : Completion JsVal) : Thrown :=
  let errorData := match json with Normal v => v | Throw _ => JObj [] end in
  match getProp errorData "detail" with
  | None => ThrownNullRead
  | Some detail =>
      if truthy detail then ThrownError (ToString detail)
      else
        match getProp errorData "message" with
        | None => ThrownNullRead
        | Some m => ThrownError (ToString (or_else m (JStr "Failed to process query")))
        end
  end.

(** [err.message || 'An unexpected error occurred'] in the [catch] block. *)
Definition caughtMessage (h : Host) (e : Thrown) : string :=
  let m := message h e in
  if isEmpty m then "An unexpected error occurred" else m.

(** The object literal of the non-suggest branch:
    [{ sql: data.sql || '', explanation: data.explanation || '' }]. *)
Definition sqlResult (data : JsVal) : Completion (list (string * JsVal)) :=
  match getProp data "sql", getProp data "explanation" with
  | Some s, Some e =>
      Normal [("sql", or_else s (JStr "")); ("explanation", or_else e (JStr ""))]
  | _, _ => Throw ThrownNullRead
  end.

(** The object literal of the suggest branch:
    [{ suggestions: data.queries || [], explanation: data.notes || '' }]. *)
Definition suggestResult (data : JsVal) : Completion (list (string * JsVal)) :=
  match getProp data "queries", getProp data "notes" with
  | Some q, Some n =>
      Normal [("suggestions", or_else q (JArr [])); ("explanation", or_else n (JStr ""))]
  | _, _ => Throw ThrownNullRead
  end.

End DashboardShared.

(** ** Dashboard, frontend/src/pages/Dashboard.tsx *)

Module Dashboard.
Import JS DashboardShared.

Record State : Type := mkState {
  operation : string;
  input : string;
  isLoading : bool;
  output : option (list (string * JsVal));
  error : string
}.

Definition initialState : State :=
  {| operation := "generate"; input := ""; isLoading := false;
     output := None; error := "" |}.

Definition setOperation (v : string) (st : State) : State :=
  {| operation := v; input := input st; isLoading := isLoading st;
     output := output st; error := error st |}.
Definition setInput (v : string) (st : State) : State :=
  {| operation := operation st; input := v; isLoading := isLoading st;
     output := output st; error := error st |}.
Definition setIsLoading (v : bool) (st : State) : State :=
  {| operation := operation st; input := input st; isLoading := v;
     output := output st; error := error st |}.
Definition setOutput (v : option (list (string * JsVal))) (st : State) : State :=
  {| operation := operation st; input := input st; isLoading := isLoading st;
     output := v; error := error st |}.
Definition setError (v : string) (st : State) : State :=
  {| operation := operation st; input := input st; isLoading := isLoading st;
     output := output st; error := v |}.

(** The effect on [searchParams]; [op] is [searchParams.get('op')]. *)
Definition searchParamsEffect (op : option string) (st : State) : State :=
  match op with
  | Some o =>
      if isEmpty o then st
      else setError "" (setOutput None (setInput "" (setOperation o st)))
  | None => st
  end.

Definition endpoint (operation : string) : string :=
  let endpoint := "/generate-sql" in
  let endpoint := if String.eqb operation "fix" then "/fix-sql" else endpoint in
  let endpoint := if String.eqb operation "explain" then "/explain-sql" else endpoint in
  let endpoint := if String.eqb operation "optimize" then "/optimize-sql" else endpoint in
  let endpoint := if String.eqb operation "suggest" then "/suggest-next" else endpoint in
  endpoint.

(** The object literal given to [JSON.stringify]. *)
Definition payload (operation input : string) : list (string * JsVal) :=
  [ ("question", if String.eqb operation "generate" then JStr input else JUndefined);
    ("sql", if negb (String.eqb operation "generate") then JStr input else JUndefined);
    ("db_key", JStr "default");
    ("max_rows", JNum (Int 100)) ].

(** [handleRunQuery] up to the [await fetch(...)]: the new state and the
    request, if one is issued. *)
Definition handleRunQuery_begin (h : Host) (st : State) : State * option Request :=
  if inputIsBlank (input st) then
    (setError "Please enter a query or description" st, None)
  else
    let st1 := setOutput None (setIsLoading true (setError "" st)) in
    (st1, Some {| url := apiUrl h +:+ endpoint (operation st);
                  method := "POST";
                  body := sentFields (payload (operation st) (input st)) |}).

(** [handleRunQuery] from the point where the [fetch] settles, through
    [catch] and [finally]; [cur] is the state of the component then. *)
Definition handleRunQuery_resume (h : Host) (outcome : FetchOutcome) (cur : State) : State :=
  let result :=
    match outcome with
    | NetworkFailure e => Throw e
    | Response false json => Throw (failedResponse json)
    | Response true (Throw e) => Throw e
    | Response true (Normal data) => sqlResult data
    end in
  let cur1 :=
    match result with
    | Normal o => setOutput (Some o) cur
    | Throw e => setError (caughtMessage h e) cur
    end in
  setIsLoading false cur1.

(** One whole run against a [fetch] that settles as [net] says, with no
    other event in between: the final state and the requests issued. *)
Definition handleRunQuery (h : Host) (net : Request -> FetchOutcome) (st : State)
  : State * list Request :=
  match handleRunQuery_begin h st with
  | (st1, None) => (st1, [])
  | (st1, Some req) => (handleRunQuery_resume h (net req) st1, [req])
  end.

End Dashboard.

(** ** Dashboard, src/unnamed/part_009: the variant with a numeric
    suggestion-count field *)

Module Dashboard009.
Import JS DashboardShared.

Record State : Type := mkState {
  operation : string;
  input : string;
  isLoading : bool;
  output : option (list (string * JsVal));
  error : string;
  numSuggestions : Num
}.

Definition initialState : State :=
  {| operation := "generate"; input := ""; isLoading := false;
     output := None; error := ""; numSuggestions := Int 5 |}.

Definition setOperation (v : string) (st : State) : State :=
  {| operation := v; input := input st; isLoading := isLoading st;
     output := output st; error := error st; numSuggestions := numSuggestions st |}.
Definition setInput (v : string) (st : State) : State :=
  {| operation := operation st; input := v; isLoading := isLoading st;
     output := output st; error := error st; numSuggestions := numSuggestions st |}.
Definition setIsLoading (v : bool) (st : State) : State :=
  {| operation := operation st; input := input st; isLoading := v;
     output := output st; error := error st; numSuggestions := numSuggestions st |}.
Definition setOutput (v : option (list (string * JsVal))) (st : State) : State :=
  {| operation := operation st; input := input st; isLoading := isLoading st;
     output := v; error := error st; numSuggestions := numSuggestions st |}.
Definition setError (v : string) (st : State) : State :=
  {| operation := operation st; input := input st; isLoading := isLoading st;
     output := output st; error := v; numSuggestions := numSuggestions st |}.
Definition setNumSuggestions (v : Num) (st : State) : State :=
  {| operation := operation st; input := input st; isLoading := isLoading st;
     output := output st; error := error st; numSuggestions := v |}.

Definition searchParamsEffect (op : option string) (st : State) : State :=
  match op with
  | Some o =>
      if isEmpty o then st
      else setError "" (setOutput None (setInput "" (setOperation o st)))
  | None => st
  end.

(** [onChange] of the suggestion-count field, an
    [<input type="number" min="1" max="10">]:
    [setNumSuggestions(parseInt(e.target.value) || 5)]. *)
Definition numSuggestionsChange (value : string) (st : State) : State :=
  let parsed := parseInt value None in
  setNumSuggestions (if truthy (JNum parsed) then parsed else Int 5) st.

Definition endpoint (operation : string) : string :=
  let endpoint := "/generate-sql" in
  let endpoint := if String.eqb operation "fix" then "/fix-sql" else endpoint in
  let endpoint := if String.eqb operation "explain" then "/explain-sql" else endpoint in
  let endpoint := if String.eqb operation "optimize" then "/optimize-sql" else endpoint in
  let endpoint := if String.eqb operation "suggest" then "/suggest-next" else endpoint in
  endpoint.

Definition payload (operation input : string) (numSuggestions : Num)
  : list (string * JsVal) :=
  [ ("question", if String.eqb operation "generate" then JStr input else JUndefined);
    ("sql", if negb (String.eqb operation "generate") then JStr input else JUndefined);
    ("db_key", JStr "default");
    ("max_rows", JNum (Int 100));
    ("max_suggestions",
       if String.eqb operation "suggest" then JNum numSuggestions else JUndefined) ].

Definition handleRunQuery_begin (h : Host) (st : State) : State * option Request :=
  if inputIsBlank (input st) then
    (setError "Please enter a query or description" st, None)
  else
    let st1 := setOutput None (setIsLoading true (setError "" st)) in
    (st1, Some {| url := apiUrl h +:+ endpoint (operation st);
                  method := "POST";
                  body := sentFields
                            (payload (operation st) (input st) (numSuggestions st)) |}).

(** The continuation closes over the [operation] of the render in which
    the run was started. *)
Definition handleRunQuery_resume (h : Host) (operation : string)
    (outcome : FetchOutcome) (cur : State) : State :=
  let result :=
    match outcome with
    | NetworkFailure e => Throw e
    | Response false json => Throw (failedResponse json)
    | Response true (Throw e) => Throw e
    | Response true (Normal data) =>
        if String.eqb operation "suggest" then suggestResult data else sqlResult data
    end in
  let cur1 :=
    match result with
    | Normal o => setOutput (Some o) cur
    | Throw e => setError (caughtMessage h e) cur
    end in
  setIsLoading false cur1.

Definition handleRunQuery (h : Host) (net : Request -> FetchOutcome) (st : State)
  : State * list Request :=
  match handleRunQuery_begin h st with
  | (st1, None) => (st1, [])
  | (st1, Some req) => (handleRunQuery_resume h (operation st) (net req) st1, [req])
  end.

End Dashboard009.

(** ** Dashboard, src/unnamed/part_008: the variant with a text
    suggestion-count field validated on blur and on submit *)

Module Dashboard008.
Import JS DashboardShared.

Record State : Type := mkState {
  operation : string;
  input : string;
  isLoading : bool;
  output : option (list (string * JsVal));
  error : string;
  numSuggestionsInput : string;
  numSuggestionsWasValidated : bool;
  databaseType : string
}.

(** The initial [databaseType]: the stored dialect of the e-mail found in
    the session entry, of ['default'] without one. *)
Definition initialDatabaseType (h : Host) (sessionStorage localStorage : gmap string string)
  : string :=
  let userEmail :=
    match sessionStorage !! "auth_user" with
    | Some savedUser =>
        if isEmpty savedUser then JStr "default"
        else
          match JSON_parse h savedUser with
          | Normal v =>
              match getProp v "email" with
              | Some e => e
              | None => JStr "default"
              end
          | Throw _ => JStr "default"
          end
    | None => JStr "default"
    end in
  getItemOr localStorage ("selected_db_" +:+ ToString userEmail) "mysql".

Definition initialState (databaseType : string) : State :=
  {| operation := "generate"; input := ""; isLoading := false; output := None;
     error := ""; numSuggestionsInput := "5"; numSuggestionsWasValidated := false;
     databaseType := databaseType |}.

Definition setOperation (v : string) (st : State) : State :=
  {| operation := v; input := input st; isLoading := isLoading st;
     output := output st; error := error st;
     numSuggestionsInput := numSuggestionsInput st;
     numSuggestionsWasValidated := numSuggestionsWasValidated st;
     databaseType := databaseType st |}.
Definition setInput (v : string) (st : State) : State :=
  {| operation := operation st; input := v; isLoading := isLoading st;
     output := output st; error := error st;
     numSuggestionsInput := numSuggestionsInput st;
     numSuggestionsWasValidated := numSuggestionsWasValidated st;
     databaseType := databaseType st |}.
Definition setIsLoading (v : bool) (st : State) : State :=
  {| operation := operation st; input := input st; isLoading := v;
     output := output st; error := error st;
     numSuggestionsInput := numSuggestionsInput st;
     numSuggestionsWasValidated := numSuggestionsWasValidated st;
     databaseType := databaseType st |}.
Definition setOutput (v : option (list (string * JsVal))) (st : State) : State :=
  {| operation := operation st; input := input st; isLoading := isLoading st;
     output := v; error := error st;
     numSuggestionsInput := numSuggestionsInput st;
     numSuggestionsWasValidated := numSuggestionsWasValidated st;
     databaseType := databaseType st |}.
Definition setError (v : string) (st : State) : State :=
  {| operation := operation st; input := input st; isLoading := isLoading st;
     output := output st; error := v;
     numSuggestionsInput := numSuggestionsInput st;
     numSuggestionsWasValidated := numSuggestionsWasValidated st;
     databaseType := databaseType st |}.
Definition setNumSuggestionsInput (v : string) (st : State) : State :=
  {| operation := operation st; input := input st; isLoading := isLoading st;
     output := output st; error := error st;
     numSuggestionsInput := v;
     numSuggestionsWasValidated := numSuggestionsWasValidated st;
     databaseType := databaseType st |}.
Definition setNumSuggestionsWasValidated (v : bool) (st : State) : State :=
  {| operation := operation st; input := input st; isLoading := isLoading st;
     output := output st; error := error st;
     numSuggestionsInput := numSuggestionsInput st;
     numSuggestionsWasValidated := v;
     databaseType := databaseType st |}.

Definition searchParamsEffect (op : option string) (st : State) : State :=
  match op with
  | Some o =>
      if isEmpty o then st
      else setError "" (setOutput None (setInput "" (setOperation o st)))
  | None => st
  end.

(** Helper to parse and clamp suggestions. *)
Definition getValidatedSuggestions (val : string) : Num :=
  let parsed := parseInt val (Some 10%Z) in
  if isEmpty val || isNaN parsed then Int 5
  else Math_max (Int 1) (Math_min (Int 10) parsed).

(** [/^\d*$/.test(s)] *)
Definition allDigits (s : string) : bool :=
  forallb (fun c => let n := nat_of_ascii c in (48 <=? n)%nat && (n <=? 57)%nat)
          (list_ascii_of_string s).

(** [onChange] of the suggestion-count text field. *)
Definition numSuggestionsChange (value : string) (st : State) : State :=
  let st1 := setNumSuggestionsWasValidated false st in
  if isEmpty value || allDigits value then setNumSuggestionsInput value st1 else st1.

Definition handleNumSuggestionsBlur (st : State) : State :=
  let validated := getValidatedSuggestions (numSuggestionsInput st) in
  setNumSuggestionsWasValidated true (setNumSuggestionsInput (Num_toString validated) st).

Definition endpoint (operation : string) : string :=
  let endpoint := "/api/generate-sql" in
  let endpoint := if String.eqb operation "fix" then "/api/fix-sql" else endpoint in
  let endpoint := if String.eqb operation "explain" then "/api/explain-sql" else endpoint in
  let endpoint := if String.eqb operation "optimize" then "/api/optimize-sql" else endpoint in
  let endpoint := if String.eqb operation "suggest" then "/api/suggest-next" else endpoint in
  endpoint.

(** The [payload] object after its three assignments. *)
Definition payload (operation input databaseType : string) (finalSuggestionsValue : Num)
  : list (string * JsVal) :=
  let payload :=
    [ ("db_key", JStr "default"); ("max_rows", JNum (Int 100));
      ("database_type", JStr databaseType) ] in
  let payload :=
    if String.eqb operation "generate" then payload ++ [("question", JStr input)]
    else payload ++ [("sql", JStr input)] in
  let payload :=
    if String.eqb operation "suggest"
    then payload ++ [("max_suggestions", JNum finalSuggestionsValue)]
    else payload in
  payload.

Definition handleRunQuery_begin (h : Host) (st : State) : State * option Request :=
  if inputIsBlank (input st) then
    (setError "Please enter a query or description" st, None)
  else
    let st1 := setOutput None (setIsLoading true (setError "" st)) in
    let finalSuggestionsValue := getValidatedSuggestions (numSuggestionsInput st) in
    let st2 :=
      setNumSuggestionsWasValidated true
        (setNumSuggestionsInput (Num_toString finalSuggestionsValue) st1) in
    (st2, Some {| url := apiUrl h +:+ endpoint (operation st);
                  method := "POST";
                  body := sentFields
                            (payload (operation st) (input st) (databaseType st)
                                        finalSuggestionsValue) |}).

Definition handleRunQuery_resume (h : Host) (operation : string)
    (outcome : FetchOutcome) (cur : State) : State :=
  let result :=
    match outcome with
    | NetworkFailure e => Throw e
    | Response false json => Throw (failedResponse json)
    | Response true (Throw e) => Throw e
    | Response true (Normal data) =>
        if String.eqb operation "suggest" then suggestResult data else sqlResult data
    end in
  let cur1 :=
    match result with
    | Normal o => setOutput (Some o) cur
    | Throw e => setError (caughtMessage h e) cur
    end in
  setIsLoading false cur1.

Definition handleRunQuery (h : Host) (net : Request -> FetchOutcome) (st : State)
  : State * list Request :=
  match handleRunQuery_begin h st with
  | (st1, None) => (st1, [])
  | (st1, Some req) => (handleRunQuery_resume h (operation st) (net req) st1, [req])
  end.

(** What the page passes to [QueryOutput]:
    [sql={output?.sql || ''}], [explanation={output?.explanation}],
    [suggestions={output?.suggestions}]. *)
Definition queryOutputProps (st : State) : JsVal * JsVal * JsVal :=
  let out := match output st with Some o => JObj o | None => JNull end in
  (or_else (getPropOpt out "sql") (JStr ""),
   getPropOpt out "explanation",
   getPropOpt out "suggestions").

End Dashboard008.

(** ** OperationSelector, frontend/src/components/dashboard/OperationSelector.tsx *)

Module OperationSelector.

Record Operation : Type := {
  value : string;
  label : string;
  description : string;
  icon : string;
  color : string
}.

Definition operations : list Operation :=
  [ {| value := "generate"; label := "Generate SQL";
       description := "From English to SQL";
       icon := "Sparkles"; color := "text-primary" |};
    {| value := "fix"; label := "Fix SQL";
       description := "Debug and fix errors";
       icon := "Wrench"; color := "text-orange-500" |};
    {| value := "explain"; label := "Explain SQL";
       description := "Understand your query";
       icon := "MessageSquare"; color := "text-blue-500" |};
    {| value := "optimize"; label := "Optimize SQL";
       description := "Improve performance";
       icon := "Zap"; color := "text-yellow-500" |};
    {| value := "suggest"; label := "AI Suggestions";
       description := "Get query suggestions";
       icon := "ArrowRight"; color := "text-green-500" |};
    {| value := "join"; label := "View Possible Joins";
       description := "Find table relations";
       icon := "Link2"; color := "text-purple-500" |} ].

(** The entry the selector renders for an operation code. *)
Definition entryFor (code : string) : option Operation :=
  List.find (fun op => String.eqb (value op) code) operations.

End OperationSelector.

(** ** AuthProvider, frontend/src/contexts/AuthContext.tsx *)

Module AuthContext.
Import JS.

(** The initializer of the [user] state:
    [const saved = sessionStorage.getItem('auth_user');
     return saved ? JSON.parse(saved) : null;] *)
Definition initialUser (h : Host) (sessionStorage : gmap string string)
  : Completion JsVal :=
  match sessionStorage !! "auth_user" with
  | Some saved => if isEmpty saved then Normal JNull else JSON_parse h saved
  | None => Normal JNull
  end.

(** [signOut]: the new [user] and session storage. *)
Definition signOut (sessionStorage : gmap string string)
  : JsVal * gmap string string :=
  (JNull, delete "auth_user" sessionStorage).

End AuthContext.

(** ** OnboardingPage, src/unnamed/part_006 *)

Module OnboardingPage.
Import JS.

Record State : Type := mkState {
  database : string;
  schema : string;
  isLoading : bool;
  onboardingCompleted : bool
}.

Definition setDatabase (v : string) (st : State) : State :=
  {| database := v; schema := schema st; isLoading := isLoading st;
     onboardingCompleted := onboardingCompleted st |}.
Definition setSchema (v : string) (st : State) : State :=
  {| database := database st; schema := v; isLoading := isLoading st;
     onboardingCompleted := onboardingCompleted st |}.
Definition setIsLoading (v : bool) (st : State) : State :=
  {| database := database st; schema := schema st; isLoading := v;
     onboardingCompleted := onboardingCompleted st |}.
Definition setOnboardingCompleted (v : bool) (st : State) : State :=
  {| database := database st; schema := schema st; isLoading := isLoading st;
     onboardingCompleted := v |}.

(** What the page does to the outside, in order. *)
Inductive Event : Type :=
| Fetched (req : Request)
| ToastError (title description : JsVal) (duration : option Z)
| ToastWarning (title description : JsVal) (duration : option Z)
| ToastSuccess (title : string)
| Navigated (path : string).

(** The page together with what it shares with the rest of the browser. *)
Record World : Type := {
  page : State;
  localStorage : gmap string string;
  events : list Event
}.

Definition onPage (f : State -> State) (w : World) : World :=
  {| page := f (page w); localStorage := localStorage w; events := events w |}.
Definition setItem (k v : string) (w : World) : World :=
  {| page := page w; localStorage := <[k := v]> (localStorage w); events := events w |}.
Definition emit (e : Event) (w : World) : World :=
  {| page := page w; localStorage := localStorage w; events := events w ++ [e] |}.

(** The e-mail the keys are built from: the one in the session entry when
    that entry parses, else [user?.email || 'default']. *)
Definition userEmail (h : Host) (sessionStorage : gmap string string) (user : JsVal)
  : JsVal :=
  let fallback := or_else (getPropOpt user "email") (JStr "default") in
  match sessionStorage !! "auth_user" with
  | Some savedUser =>
      if isEmpty savedUser then fallback
      else
        match JSON_parse h savedUser with
        | Normal v =>
            match getProp v "email" with
            | Some e => e
            | None => fallback
            end
        | Throw _ => fallback
        end
  | None => fallback
  end.

(** The three storage keys of an e-mail, as the template literals build them. *)
Definition selectedDbKey (userEmail : JsVal) : string :=
  "selected_db_" +:+ ToString userEmail.
Definition lastSchemaKey (userEmail : JsVal) : string :=
  "last_schema_" +:+ ToString userEmail.
Definition onboardingCompletedKey (userEmail : JsVal) : string :=
  "onboarding_completed_" +:+ ToString userEmail.

(** The three reads that initialise the state and that the effect on
    [userEmail] repeats. *)
Definition readDatabase (storage : gmap string string) (userEmail : JsVal) : string :=
  getItemOr storage (selectedDbKey userEmail) "mysql".
Definition readSchema (storage : gmap string string) (userEmail : JsVal) : string :=
  getItemOr storage (lastSchemaKey userEmail) "".
Definition readCompleted (storage : gmap string string) (userEmail : JsVal) : bool :=
  match storage !! onboardingCompletedKey userEmail with
  | Some v => String.eqb v "true"
  | None => false
  end.

Definition initialState (storage : gmap string string) (userEmail : JsVal) : State :=
  {| database := readDatabase storage userEmail;
     schema := readSchema storage userEmail;
     isLoading := false;
     onboardingCompleted := readCompleted storage userEmail |}.

Definition uploadRequest (h : Host) (schema database : string) : Request :=
  {| url := apiUrl h +:+ "/upload-schema";
     method := "POST";
     body := sentFields [ ("db_key", JStr "default"); ("schema_sql", JStr schema);
                          ("database_type", JStr database) ] |}.

(** The effect on [userEmail]: reload the three settings and, when a schema
    is stored and onboarding is completed, re-upload it (the answer is
    ignored). *)
Definition userEmailEffect (h : Host) (userEmail : JsVal) (w : World) : World :=
  let db := readDatabase (localStorage w) userEmail in
  let sc := readSchema (localStorage w) userEmail in
  let completed := readCompleted (localStorage w) userEmail in
  let w1 := onPage (fun st => setOnboardingCompleted completed
                                (setSchema sc (setDatabase db st))) w in
  if negb (isEmpty sc) && completed then emit (Fetched (uploadRequest h sc db)) w1
  else w1.

(** How the [try] block of [handleComplete] ends. *)
Inductive TryEnd : Type :=
| Completed (w : World)
| Returned (w : World)
| Raised (e : Thrown) (w : World).

(** The [if (!response.ok)] block of [handleComplete]. *)
Definition uploadRejected (json : Completion JsVal) (w : World) : TryEnd :=
  let errorData := match json with Normal v => v | Throw _ => JObj [] end in
  match getProp errorData "detail" with
  | None => Raised ThrownNullRead w
  | Some detail =>
      let generic :=
        Raised (ThrownError
                  (ToString (or_else (getPropOpt detail "message")
                               (or_else detail (JStr "Failed to upload schema"))))) w in
      if truthy detail && typeofObject detail then
        if strictEqStr (getPropOpt detail "error") "schema_dialect_mismatch" then
          Returned
            (onPage (setIsLoading false)
               (emit (ToastError (JStr "Schema Dialect Mismatch")
                                 (getPropOpt detail "message") (Some 8000%Z)) w))
        else if strictEqStr (getPropOpt detail "error") "schema_parse_failed" then
          let first := getIndex0Opt (getPropOpt detail "parse_errors") in
          let description :=
            if truthy first then JStr ("Error: " +:+ ToString first)
            else getPropOpt detail "hint" in
          Returned
            (onPage (setIsLoading false)
               (emit (ToastError (getPropOpt detail "message") description
                                 (Some 8000%Z)) w))
        else if truthy (getPropOpt detail "message") then
          Raised (ThrownError (ToString (getPropOpt detail "message"))) w
        else generic
      else generic
  end.

(** The rest of the [try] block, after a success status; [schema],
    [database] and [onboardingCompleted] are the values the handler closed
    over. *)
Definition uploadAccepted (userEmail : JsVal) (schema database : string)
    (onboardingCompleted : bool) (json : Completion JsVal) (w : World) : TryEnd :=
  match json with
  | Throw e => Raised e w
  | Normal data =>
      match getProp data "warning" with
      | None => Raised ThrownNullRead w
      | Some warning =>
          let w1 :=
            if truthy warning then
              let warningMsg :=
                if typeofObject warning then getPropOpt warning "message"
                else getPropOpt data "message" in
              emit (ToastWarning (JStr "Schema Uploaded with Warning")
                      (or_else warningMsg (JStr "Dialect detection uncertain."))
                      (Some 5000%Z)) w
            else
              emit (ToastSuccess (if onboardingCompleted
                                  then "Schema updated successfully!"
                                  else "Onboarding completed!")) w in
          let w2 :=
            setItem (lastSchemaKey userEmail) schema
              (setItem (selectedDbKey userEmail) database
                 (setItem (onboardingCompletedKey userEmail) "true" w1)) in
          let w3 := onPage (setOnboardingCompleted true) w2 in
          Completed (if negb onboardingCompleted
                     then emit (Navigated "/dashboard") w3 else w3)
      end
  end.

(** [handleComplete] from the point where the [fetch] settles. *)
Definition handleComplete_resume (h : Host) (userEmail : JsVal)
    (schema database : string) (onboardingCompleted : bool)
    (outcome : FetchOutcome) (w : World) : World :=
  let tryEnd :=
    match outcome with
    | NetworkFailure e => Raised e w
    | Response false json => uploadRejected json w
    | Response true json =>
        uploadAccepted userEmail schema database onboardingCompleted json w
    end in
  let w1 :=
    match tryEnd with
    | Completed w' | Returned w' => w'
    | Raised e w' =>
        let m := message h e in
        emit (ToastError (JStr "Upload Failed")
                (JStr (if isEmpty m
                       then "An unexpected error occurred uploading the schema."
                       else m))
                None) w'
    end in
  onPage (setIsLoading false) w1.

(** One whole [handleComplete] against a [fetch] that settles as [net]
    says, with no other event in between. *)
Definition handleComplete (h : Host) (userEmail : JsVal)
    (net : Request -> FetchOutcome) (w : World) : World :=
  let st := page w in
  if isEmpty (trim (schema st)) then
    emit (ToastError (JStr "Please provide a schema or skip for now") JUndefined None) w
  else
    let req := uploadRequest h (schema st) (database st) in
    let w1 := emit (Fetched req) (onPage (setIsLoading true) w) in
    handleComplete_resume h userEmail (schema st) (database st)
      (onboardingCompleted st) (net req) w1.

Definition handleSkip (userEmail : JsVal) (w : World) : World :=
  emit (Navigated "/dashboard")
    (setItem (selectedDbKey userEmail) (database (page w))
       (setItem (onboardingCompletedKey userEmail) "true" w)).

End OnboardingPage.

(** ** The three variants of the Dashboard page, seen alike *)

Module Variants.
Import JS.

(** What the dashboard pages have in common: the state cells every
    variant declares, the effect on the [op] parameter and the run action. *)
Record Page : Type := {
  PageState : Type;
  pageOperation : PageState -> string;
  pageInput : PageState -> string;
  pageOutput : PageState -> option (list (string * JsVal));
  pageError : PageState -> string;
  pageSearchParamsEffect : option string -> PageState -> PageState;
  pageHandleRunQuery :
    Host -> (Request -> FetchOutcome) -> PageState -> PageState * list Request
}.

Inductive Variant : Type :=
| DashboardTsx
| Part009
| Part008.

Definition pageOf (v : Variant) : Page :=
  match v with
  | DashboardTsx =>
      {| PageState := Dashboard.State;
         pageOperation := Dashboard.operation;
         pageInput := Dashboard.input;
         pageOutput := Dashboard.output;
         pageError := Dashboard.error;
         pageSearchParamsEffect := Dashboard.searchParamsEffect;
         pageHandleRunQuery := Dashboard.handleRunQuery |}
  | Part009 =>
      {| PageState := Dashboard009.State;
         pageOperation := Dashboard009.operation;
         pageInput := Dashboard009.input;
         pageOutput := Dashboard009.output;
         pageError := Dashboard009.error;
         pageSearchParamsEffect := Dashboard009.searchParamsEffect;
         pageHandleRunQuery := Dashboard009.handleRunQuery |}
  | Part008 =>
      {| PageState := Dashboard008.State;
         pageOperation := Dashboard008.operation;
         pageInput := Dashboard008.input;
         pageOutput := Dashboard008.output;
         pageError := Dashboard008.error;
         pageSearchParamsEffect := Dashboard008.searchParamsEffect;
         pageHandleRunQuery := Dashboard008.handleRunQuery |}
  end.

End Variants.

(** * Vocabulary of the statements *)

Module Vocabulary.
Import JS.

(** A string that is empty or made of white space only. *)
Fixpoint allWhiteSpace (s : string) : bool :=
  match s with
  | EmptyString => true
  | String c s' => isWhiteSpace c && allWhiteSpace s'
  end.

(** The clamping function in the words of the specification: 5 for an
    empty or unparsable string, else the parsed integer brought into
    [1, 10]. *)
Definition clamp (s : string) : Z :=
  match parseInt s (Some 10%Z) with
  | NaN => 5%Z
  | Int n => if isEmpty s then 5%Z else Z.max 1 (Z.min 10 n)
  end.

(** The number a string of decimal digits spells, after the digits that
    spelled [acc]. *)
Fixpoint digitsValue (acc : Z) (s : string) : Z :=
  match s with
  | EmptyString => acc
  | String c s' => digitsValue (10 * acc + (Z.of_nat (nat_of_ascii c) - 48)) s'
  end.

(** The six operation codes. *)
Definition operationCodes : list string :=
  ["generate"; "fix"; "explain"; "optimize"; "suggest"; "join"].

(** The codes [handleRunQuery] tests for by name. *)
Definition dispatchedCodes : list string :=
  ["generate"; "fix"; "explain"; "optimize"; "suggest"].

(** The three Workspace Settings of an e-mail and where each is stored. *)
Inductive Setting : Type := Dialect | SchemaText | CompletedFlag.

Definition settingKey (k : Setting) (email : string) : string :=
  match k with
  | Dialect => OnboardingPage.selectedDbKey (JStr email)
  | SchemaText => OnboardingPage.lastSchemaKey (JStr email)
  | CompletedFlag => OnboardingPage.onboardingCompletedKey (JStr email)
  end.

(** One [localStorage.setItem] on a settings key. *)
Definition writeSetting (w : string * Setting * string) (storage : gmap string string)
  : gmap string string :=
  let '(email, k, v) := w in <[settingKey k email := v]> storage.

(** The settings as the onboarding page reads them for an e-mail. *)
Definition readSettings (storage : gmap string string) (email : string)
  : string * string * bool :=
  (OnboardingPage.readDatabase storage (JStr email),
   OnboardingPage.readSchema storage (JStr email),
   OnboardingPage.readCompleted storage (JStr email)).

Definition defaultSettings : string * string * bool := ("mysql", "", false).


(** A host for the concrete runs: no API URL configured, and a
    [JSON.parse] that is right on the texts the runs store, [null] and
    the malformed [{bad]. *)
Definition exampleHost : Host :=
  {| VITE_API_URL := None;
     JSON_parse := fun text =>
       if String.eqb text "null" then Normal JNull
       else Throw (ThrownError "Unexpected token");
     nullReadMessage := "Cannot read properties of null" |}.


(** Where the [try] block of [handleComplete] leaves the world. *)
Definition endWorld (t : OnboardingPage.TryEnd) : OnboardingPage.World :=
  match t with
  | OnboardingPage.Completed w | OnboardingPage.Returned w
  | OnboardingPage.Raised _ w => w
  end.

(** The storage after the three [setItem] calls of a successful upload. *)
Definition savedStorage (userEmail : JsVal) (schema database : string)
    (storage : gmap string string) : gmap string string :=
  <[OnboardingPage.lastSchemaKey userEmail := schema]>
    (<[OnboardingPage.selectedDbKey userEmail := database]>
       (<[OnboardingPage.onboardingCompletedKey userEmail := "true"]> storage)).

(** *** The onboarding page over time *)

(** What a run of [handleComplete] may do to the settings: the typed schema
    and the selected dialect stay, and either nothing is stored and the
    completed state stays, or the three settings are stored and the page
    is completed. *)
Definition completeFootprint (userEmail : JsVal) (schema database : string)
    (w w' : OnboardingPage.World) : Prop :=
  OnboardingPage.schema (OnboardingPage.page w')
    = OnboardingPage.schema (OnboardingPage.page w)
  /\ OnboardingPage.database (OnboardingPage.page w')
     = OnboardingPage.database (OnboardingPage.page w)
  /\ ((OnboardingPage.localStorage w' = OnboardingPage.localStorage w
       /\ OnboardingPage.onboardingCompleted (OnboardingPage.page w')
          = OnboardingPage.onboardingCompleted (OnboardingPage.page w))
      \/ (OnboardingPage.localStorage w'
            = savedStorage userEmail schema database (OnboardingPage.localStorage w)
          /\ OnboardingPage.onboardingCompleted (OnboardingPage.page w') = true)).


(** The page as it mounts on a storage. *)
Definition mounted (storage : gmap string string) (userEmail : JsVal)
  : OnboardingPage.World :=
  {| OnboardingPage.page := OnboardingPage.initialState storage userEmail;
     OnboardingPage.localStorage := storage;
     OnboardingPage.events := [] |}.



(** *** Concrete runs *)

(** The page of src/unnamed/part_009 after [?op=suggest], a query typed
    and 15 typed into the count field. *)
Definition part009_fifteen : Dashboard009.State :=
  Dashboard009.numSuggestionsChange "15"
    (Dashboard009.setInput "SELECT 1"
       (Dashboard009.searchParamsEffect (Some "suggest") Dashboard009.initialState)).

(** A [suggest] run on a page with 12 in the count field, answered with
    one suggestion and no [notes]. *)
Definition suggestRun : Dashboard008.State :=
  Dashboard008.numSuggestionsChange "12"
    (Dashboard008.setInput "SELECT 1"
       (Dashboard008.searchParamsEffect (Some "suggest")
          (Dashboard008.initialState "mysql"))).

Definition suggestAnswer : JsVal :=
  JObj [("queries", JArr [JObj [("sql", JStr "SELECT 2"); ("title", JStr "Next")]])].

(** The onboarding page on an empty storage, with SQLite selected. *)
Definition freshSqliteWorld : OnboardingPage.World :=
  {| OnboardingPage.page :=
       OnboardingPage.setDatabase "sqlite"
         (OnboardingPage.initialState ∅ (JStr "a@x.com"));
     OnboardingPage.localStorage := ∅;
     OnboardingPage.events := [] |}.

(** The same page after SQLite was picked and a schema typed. *)
Definition typedSqliteWorld : OnboardingPage.World :=
  OnboardingPage.onPage (OnboardingPage.setSchema "CREATE TABLE t (id INT);")
    (OnboardingPage.onPage (OnboardingPage.setDatabase "sqlite")
       (mounted ∅ (JStr "a@x.com"))).

(** Settings written under two e-mails. *)
Definition otherWrites : list (string * Setting * string) :=
  [ ("a@x.com", Dialect, "sqlite");
    ("a@x.com", SchemaText, "CREATE TABLE t (id INT);");
    ("c@z.com", CompletedFlag, "true") ].

(** The onboarding page with a schema typed, nothing stored yet. *)
Definition typedWorld : OnboardingPage.World :=
  {| OnboardingPage.page :=
       OnboardingPage.setSchema "CREATE TABLE t (id SERIAL);"
         (OnboardingPage.initialState ∅ (JStr "a@x.com"));
     OnboardingPage.localStorage := ∅;
     OnboardingPage.events := [] |}.

(** The error body of a dialect mismatch. *)
Definition mismatchDetail : list (string * JsVal) :=
  [ ("error", JStr "schema_dialect_mismatch");
    ("message", JStr "Schema looks like PostgreSQL") ].

Definition mismatchBody : JsVal := JObj [("detail", JObj mismatchDetail)].

(** A session storage whose identity entry is not JSON. *)
Definition malformedSession : gmap string string := {["auth_user" := "{bad"]}.

(** The part_008 dashboard showing a result and an error, its input
    blanked. *)
Definition blankInputPage : Dashboard008.State :=
  Dashboard008.setInput "   "
    (Dashboard008.setError "boom"
       (Dashboard008.setOutput (Some [("sql", JStr "SELECT 1")])
          (Dashboard008.initialState "mysql"))).

End Vocabulary.

(** * Further components *)

(** ** AuthProvider actions, frontend/src/contexts/AuthContext.tsx *)

Module AuthActions.
Import JS.

(** The provider's state cells. *)
Record State : Type := {
  user : JsVal;
  isLoading : bool
}.

(** The provider together with the session storage and the requests it has
    issued. *)
Record World : Type := {
  auth : State;
  sessionStorage : gmap string string;
  requests : list Request
}.

(** The host of the provider: [JSON.stringify] besides what every
    component uses. *)
Record AuthHost : Type := {
  host : Host;
  JSON_stringify : JsVal -> string
}.

Definition setUser (v : JsVal) (w : World) : World :=
  {| auth := {| user := v; isLoading := isLoading (auth w) |};
     sessionStorage := sessionStorage w; requests := requests w |}.
Definition setIsLoading (v : bool) (w : World) : World :=
  {| auth := {| user := user (auth w); isLoading := v |};
     sessionStorage := sessionStorage w; requests := requests w |}.
Definition setItem (k v : string) (w : World) : World :=
  {| auth := auth w; sessionStorage := <[k := v]> (sessionStorage w);
     requests := requests w |}.
Definition fetched (req : Request) (w : World) : World :=
  {| auth := auth w; sessionStorage := sessionStorage w;
     requests := requests w ++ [req] |}.

(** [isAuthenticated: !!user] *)
Definition isAuthenticated (w : World) : bool := truthy (user (auth w)).

(** The [if (!response.ok)] block of both actions:
    [new Error(errorData.detail || errorData.message || fallback)] after
    [response.json().catch(() => ({}))]. *)
Definition rejection (fallback : string) (json : Completion JsVal) : Thrown :=
  let errorData := match json with Normal v => v | Throw _ => JObj [] end in
  match getProp errorData "detail" with
  | None => ThrownNullRead
  | Some detail =>
      if truthy detail then ThrownError (ToString detail)
      else
        match getProp errorData "message" with
        | None => ThrownNullRead
        | Some m => ThrownError (ToString (or_else m (JStr fallback)))
        end
  end.

Definition loginRequest (ah : AuthHost) (email password : string) : Request :=
  {| url := trim (apiUrl (host ah)) +:+ "/api/login";
     method := "POST";
     body := sentFields [("email", JStr email); ("password", JStr password)] |}.

Definition signupRequest (ah : AuthHost) (email password : string) : Request :=
  {| url := apiUrl (host ah) +:+ "/api/signup";
     method := "POST";
     body := sentFields [("email", JStr email); ("password", JStr password)] |}.

(** [signIn] against a [fetch] that settles as [net] says: the world
    afterwards and whether the returned promise resolves or rejects. *)
Definition signIn (ah : AuthHost) (email password : string)
    (net : Request -> FetchOutcome) (w : World) : World * Completion unit :=
  let req := loginRequest ah email password in
  let w1 := fetched req (setIsLoading true w) in
  let tried : World * Completion unit :=
    match net req with
    | NetworkFailure e => (w1, Throw e)
    | Response false json => (w1, Throw (rejection "Login failed" json))
    | Response true (Throw e) => (w1, Throw e)
    | Response true (Normal data) =>
        match getProp data "user" with
        | None => (w1, Throw ThrownNullRead)
        | Some u =>
            let userData := or_else u (JObj [("email", JStr email)]) in
            (setItem "auth_user" (JSON_stringify ah userData) (setUser userData w1),
             Normal tt)
        end
    end in
  (setIsLoading false (fst tried), snd tried).

(** [signUp]: the same exchange with the signup endpoint; the body of a
    success answer is read and dropped. *)
Definition signUp (ah : AuthHost) (email password : string)
    (net : Request -> FetchOutcome) (w : World) : World * Completion unit :=
  let req := signupRequest ah email password in
  let w1 := fetched req (setIsLoading true w) in
  let tried : World * Completion unit :=
    match net req with
    | NetworkFailure e => (w1, Throw e)
    | Response false json => (w1, Throw (rejection "Signup failed" json))
    | Response true (Throw e) => (w1, Throw e)
    | Response true (Normal data) => (w1, Normal tt)
    end in
  (setIsLoading false (fst tried), snd tried).

(** [signOut] on the world. *)
Definition signOut (w : World) : World :=
  {| auth := {| user := fst (AuthContext.signOut (sessionStorage w));
                isLoading := isLoading (auth w) |};
     sessionStorage := snd (AuthContext.signOut (sessionStorage w));
     requests := requests w |}.

(** The provider as it mounts on a session storage, when the initializer
    does not throw. *)
Definition mount (h : Host) (storage : gmap string string) : Completion World :=
  match AuthContext.initialUser h storage with
  | Normal u =>
      Normal {| auth := {| user := u; isLoading := false |};
                sessionStorage := storage; requests := [] |}
  | Throw e => Throw e
  end.

End AuthActions.

(** ** QueryOutput, src/unnamed/part_002 *)

Module QueryOutput.

(** One entry of the [suggestions] prop. *)
Record Suggestion : Type := {
  sugSql : string;
  sugTitle : string
}.

(** The props, with the types the interface declares. *)
Record Props : Type := {
  sql : string;
  explanation : option string;
  suggestions : option (list Suggestion);
  isLoading : bool;
  operation : option string
}.

(** What the component renders.  A suggestion card carries its number,
    title and SQL; the explanation panel carries whether it has its
    "Explanation" header. *)
Inductive View : Type :=
| Spinner
| Placeholder (icon text : string)
| SuggestionCards (cards : list (nat * string * string))
| Panels (sqlCard : option string) (explanationCard : option (bool * string)).

Definition nonEmpty (s : string) : bool :=
  match s with EmptyString => false | _ => true end.

(** [operation === lit] *)
Definition operationIs (p : Props) (lit : string) : bool :=
  match operation p with
  | Some o => String.eqb o lit
  | None => false
  end.

(** [explanation] as a condition. *)
Definition hasExplanation (p : Props) : bool :=
  match explanation p with
  | Some e => nonEmpty e
  | None => false
  end.

(** [suggestions && suggestions.length > 0] *)
Definition hasSuggestions (p : Props) : bool :=
  match suggestions p with
  | Some (_ :: _) => true
  | _ => false
  end.

(** [suggestions.map((suggestion, index) => ...)], numbering from
    [index + 1]. *)
Fixpoint cardsFrom (index : nat) (l : list Suggestion) : list (nat * string * string) :=
  match l with
  | [] => []
  | s :: rest => (S index, sugTitle s, sugSql s) :: cardsFrom (S index) rest
  end.

Definition render (p : Props) : View :=
  if isLoading p then Spinner
  else if negb (nonEmpty (sql p)) && negb (hasExplanation p) && negb (hasSuggestions p)
  then
    let isExplain := operationIs p "explain" in
    let isSuggest := operationIs p "suggest" in
    Placeholder
      (if isSuggest then "Sparkles" else if isExplain then "MessageSquare" else "Code")
      (if isSuggest then "AI suggestions will appear here"
       else if isExplain then "Your explanation will appear here"
       else "Your generated SQL will appear here")
  else if operationIs p "suggest" && hasSuggestions p then
    SuggestionCards
      (cardsFrom 0 (match suggestions p with Some l => l | None => [] end))
  else
    Panels
      (if negb (operationIs p "explain") && nonEmpty (sql p) then Some (sql p) else None)
      (match explanation p with
       | Some e => if nonEmpty e then Some (negb (operationIs p "explain"), e) else None
       | None => None
       end).

(** The props the part_008 dashboard passes, when the values it holds have
    the declared types: strings for [sql] and [explanation], an array of
    objects with string [sql] and [title] for [suggestions]. *)
Definition suggestionOf (v : JS.JsVal) : option Suggestion :=
  match v with
  | JS.JObj fields =>
      match JS.lookupField "sql" fields, JS.lookupField "title" fields with
      | JS.JStr s, JS.JStr t => Some {| sugSql := s; sugTitle := t |}
      | _, _ => None
      end
  | _ => None
  end.

Fixpoint suggestionsOf (l : list JS.JsVal) : option (list Suggestion) :=
  match l with
  | [] => Some []
  | v :: rest =>
      match suggestionOf v, suggestionsOf rest with
      | Some s, Some ss => Some (s :: ss)
      | _, _ => None
      end
  end.

Definition propsOf (st : Dashboard008.State) : option Props :=
  let '(sqlV, explanationV, suggestionsV) := Dashboard008.queryOutputProps st in
  match sqlV with
  | JS.JStr s =>
      let explanationP :=
        match explanationV with
        | JS.JStr e => Some (Some e)
        | JS.JUndefined => Some None
        | _ => None
        end in
      let suggestionsP :=
        match suggestionsV with
        | JS.JArr items =>
            match suggestionsOf items with
            | Some ss => Some (Some ss)
            | None => None
            end
        | JS.JUndefined => Some None
        | _ => None
        end in
      match explanationP, suggestionsP with
      | Some e, Some ss =>
          Some {| sql := s; explanation := e; suggestions := ss;
                  isLoading := Dashboard008.isLoading st;
                  operation := Some (Dashboard008.operation st) |}
      | _, _ => None
      end
  | _ => None
  end.

End QueryOutput.

(** ** The suggestion-count field of src/unnamed/part_008, as shown *)

Module SuggestionField.
Import JS.

(** [a < b] and [a > b] on numbers: false when either is NaN. *)
Definition Num_lt (a b : Num) : bool :=
  match a, b with
  | Int x, Int y => (x <? y)%Z
  | _, _ => false
  end.

Definition Num_gt (a b : Num) : bool := Num_lt b a.

Definition isCurrentlyInvalid (st : Dashboard008.State) : bool :=
  isEmpty (Dashboard008.numSuggestionsInput st)
  || Num_lt (parseInt (Dashboard008.numSuggestionsInput st) (Some 10%Z)) (Int 1)
  || Num_gt (parseInt (Dashboard008.numSuggestionsInput st) (Some 10%Z)) (Int 10).

Definition showVisualError (st : Dashboard008.State) : bool :=
  Dashboard008.numSuggestionsWasValidated st && isCurrentlyInvalid st.

(** What can happen on the page: the query is typed, the count field is
    changed or left, the [op] parameter changes, a run starts, a run
    settles. *)
Inductive step (h : Host) : Dashboard008.State -> Dashboard008.State -> Prop :=
| stepInput (st : Dashboard008.State) (v : string) :
    step h st (Dashboard008.setInput v st)
| stepCount (st : Dashboard008.State) (v : string) :
    step h st (Dashboard008.numSuggestionsChange v st)
| stepBlur (st : Dashboard008.State) :
    step h st (Dashboard008.handleNumSuggestionsBlur st)
| stepSearchParams (st : Dashboard008.State) (p : option string) :
    step h st (Dashboard008.searchParamsEffect p st)
| stepRun (st : Dashboard008.State) :
    step h st (fst (Dashboard008.handleRunQuery_begin h st))
| stepSettle (st : Dashboard008.State) (operation : string) (outcome : FetchOutcome) :
    step h st (Dashboard008.handleRunQuery_resume h operation outcome st).

End SuggestionField.

(** ** SidebarLayout, src/unnamed/part_004 *)

Module SidebarLayout.
Import JS.

Record State : Type := {
  isMobileMenuOpen : bool;
  isSidebarCollapsed : bool
}.

(** [stored === 'true'] on [localStorage.getItem('sidebarCollapsed')]. *)
Definition initialState (localStorage : gmap string string) : State :=
  {| isMobileMenuOpen := false;
     isSidebarCollapsed :=
       match localStorage !! "sidebarCollapsed" with
       | Some stored => String.eqb stored "true"
       | None => false
       end |}.

(** The effect on [isSidebarCollapsed]:
    [localStorage.setItem('sidebarCollapsed', isSidebarCollapsed.toString())]. *)
Definition persistEffect (st : State) (localStorage : gmap string string)
  : gmap string string :=
  <["sidebarCollapsed" := if isSidebarCollapsed st then "true" else "false"]> localStorage.

Definition toggleSidebar (st : State) : State :=
  {| isMobileMenuOpen := isMobileMenuOpen st;
     isSidebarCollapsed := negb (isSidebarCollapsed st) |}.

(** A click on the collapse button and the effect that follows it. *)
Definition toggleAndPersist (st : State) (localStorage : gmap string string)
  : State * gmap string string :=
  (toggleSidebar st, persistEffect (toggleSidebar st) localStorage).

(** [navItems]: name and path. *)
Definition navItems : list (string * string) :=
  [ ("Schema", "/onboarding");
    ("Generate", "/dashboard?op=generate");
    ("Fix SQL", "/dashboard?op=fix");
    ("Explain", "/dashboard?op=explain");
    ("Optimize", "/dashboard?op=optimize");
    ("AI Suggestions", "/dashboard?op=suggest") ].

(** [handleSignOut]: the provider's [signOut], then [navigate('/signin')]. *)
Definition handleSignOut (w : AuthActions.World) : AuthActions.World * string :=
  (AuthActions.signOut w, "/signin").

End SidebarLayout.

(** ** Profile, src/unnamed/part_007 *)

Module Profile.

(** [email.split('@')[0]]: the text before the first [@]. *)
Fixpoint beforeAt (email : string) : string :=
  match email with
  | EmptyString => EmptyString
  | String c rest => if Ascii.eqb c "@" then EmptyString else String c (beforeAt rest)
  end.

(** The [User] of the auth context. *)
Record User : Type := {
  email : string;
  name : option string
}.

(** What the card shows of the user: the letter in the round badge, the
    heading and the address. *)
Record Shown : Type := {
  badge : string;
  heading : string;
  address : string
}.

(** The three expressions of the card that read the user, in the order the
    page evaluates them, for a [user] that is a [User] or [null]:
    [user?.email?.[0].toUpperCase()], [user?.email?.split('@')[0]] and
    [user?.email].  [toUpperCase] is the engine's, on a string of one code
    unit.  With no user each of the three is [undefined] and nothing of the
    user is shown ([None]); with an empty e-mail [email[0]] is [undefined]
    and reading [toUpperCase] of it throws. *)
Definition render (toUpperCase : string -> string) (user : option User)
  : JS.Completion (option Shown) :=
  match user with
  | None => JS.Normal None
  | Some u =>
      match email u with
      | EmptyString => JS.Throw JS.ThrownNullRead
      | String c _ =>
          JS.Normal (Some {| badge := toUpperCase (String c EmptyString);
                             heading := beforeAt (email u);
                             address := email u |})
      end
  end.

End Profile.

(** ** OperationSelector as rendered,
    frontend/src/components/dashboard/OperationSelector.tsx *)

Module OperationSelectorView.

(** One button per entry of the table, with [isSelected = value === op.value]. *)
Definition buttons (value : string) : list (OperationSelector.Operation * bool) :=
  map (fun op => (op, String.eqb value (OperationSelector.value op)))
      OperationSelector.operations.

End OperationSelectorView.

(** ** QueryInput, src/unnamed/part_003 *)

Module QueryInput.

Definition isEnglishInput (operation : string) : bool :=
  String.eqb operation "generate" || String.eqb operation "suggest"
  || String.eqb operation "join".

(** The label above the text area and the hint below it. *)
Definition label (operation : string) : string :=
  if isEnglishInput operation then "Your Request" else "SQL Query".

Definition hint (operation : string) : string :=
  if isEnglishInput operation
  then "Describe what you want in plain English"
  else "Enter your SQL query above".

End QueryInput.

(** ** The number field of src/unnamed/part_009 over time *)

Module CountField009.
Import JS.

(** [Number.MAX_SAFE_INTEGER]: up to this magnitude every integer is a
    number of the engine, and [parseInt] is exact. *)
Definition maxSafeInteger : Z := 9007199254740991.

(** An entry of the number field that [parseInt] reads exactly: one it makes
    nothing of, or an integer of magnitude at most [maxSafeInteger]. *)
Definition exactEntry (value : string) : bool :=
  match parseInt value None with
  | NaN => true
  | Int n => (Z.abs n <=? maxSafeInteger)%Z
  end.

(** What can happen on the page, with entries of the number field that are
    read exactly. *)
Inductive step (h : Host) : Dashboard009.State -> Dashboard009.State -> Prop :=
| stepInput (st : Dashboard009.State) (v : string) :
    step h st (Dashboard009.setInput v st)
| stepCount (st : Dashboard009.State) (v : string) :
    exactEntry v = true ->
    step h st (Dashboard009.numSuggestionsChange v st)
| stepSearchParams (st : Dashboard009.State) (p : option string) :
    step h st (Dashboard009.searchParamsEffect p st)
| stepRun (st : Dashboard009.State) :
    step h st (fst (Dashboard009.handleRunQuery_begin h st))
| stepSettle (st : Dashboard009.State) (operation : string) (outcome : FetchOutcome) :
    step h st (Dashboard009.handleRunQuery_resume h operation outcome st).

End CountField009.

(** ** Vocabulary of the further statements *)

Module Vocabulary2.
Import JS Variants.

(** The [isLoading] cell of each dashboard variant. *)
Definition pageIsLoading (v : Variant) : PageState (pageOf v) -> bool :=
  match v return PageState (pageOf v) -> bool with
  | DashboardTsx => Dashboard.isLoading
  | Part009 => Dashboard009.isLoading
  | Part008 => Dashboard008.isLoading
  end.

(** A [fetch] outcome that is an answered, successful upload or run: success
    status and a body that parses to something other than [null]. *)
Definition succeeded (outcome : FetchOutcome) : bool :=
  match outcome with
  | Response true (Normal JNull) | Response true (Normal JUndefined) => false
  | Response true (Normal _) => true
  | _ => false
  end.

(** The events of the onboarding page that are navigations. *)
Definition isNavigation (e : OnboardingPage.Event) : bool :=
  match e with OnboardingPage.Navigated _ => true | _ => false end.

Definition isErrorToast (e : OnboardingPage.Event) : bool :=
  match e with OnboardingPage.ToastError _ _ _ => true | _ => false end.

(** A host on which the stored identity of [v] reads back as [v]. *)
Definition roundTrips (ah : AuthActions.AuthHost) (v : JsVal) : Prop :=
  AuthActions.JSON_stringify ah v <> ""
  /\ JSON_parse (AuthActions.host ah) (AuthActions.JSON_stringify ah v) = Normal v.

(** A string without [@]. *)
Fixpoint noAt (s : string) : bool :=
  match s with
  | EmptyString => true
  | String c rest => negb (Ascii.eqb c "@") && noAt rest
  end.

(** What the suggestion-count field keeps: digits only, and once
    validated not invalid. *)
Definition fieldInvariant (st : Dashboard008.State) : Prop :=
  Dashboard008.allDigits (Dashboard008.numSuggestionsInput st) = true
  /\ (Dashboard008.numSuggestionsWasValidated st = true ->
      SuggestionField.isCurrentlyInvalid st = false).

(** *** Concrete runs *)

(** The JSON text of the identity [{email: a@x.com}]. *)
Definition identityText : string :=
  "{" +:+ String "034" "email" +:+ String "034" ":" +:+ String "034" "a@x.com"
  +:+ String "034" "}".

(** A host for the concrete sign-in runs: its [JSON.stringify] and
    [JSON.parse] are right on the one identity the runs store. *)
Definition exampleAuthHost : AuthActions.AuthHost :=
  {| AuthActions.host :=
       {| VITE_API_URL := None;
          JSON_parse := fun text =>
            if String.eqb text identityText
            then Normal (JObj [("email", JStr "a@x.com")])
            else Throw (ThrownError "Unexpected token");
          nullReadMessage := "Cannot read properties of null" |};
     AuthActions.JSON_stringify := fun _ => identityText |}.

(** The provider with nobody signed in. *)
Definition signedOutWorld : AuthActions.World :=
  {| AuthActions.auth := {| AuthActions.user := JNull; AuthActions.isLoading := false |};
     AuthActions.sessionStorage := ∅;
     AuthActions.requests := [] |}.

(** A [generate] run and its answer. *)
Definition generateRun : Dashboard008.State :=
  Dashboard008.setInput "users who signed up last month"
    (Dashboard008.initialState "mysql").

Definition generateAnswer : JsVal :=
  JObj [("sql", JStr "SELECT * FROM users"); ("explanation", JStr "All users")].

(** A [suggest] answer with one query and notes. *)
Definition suggestAnswerWithNotes : JsVal :=
  JObj [("queries", JArr [JObj [("sql", JStr "SELECT 2"); ("title", JStr "Next")]]);
        ("notes", JStr "One idea")].

(** The error detail of a schema the server could not parse. *)
Definition parseFailureDetail : list (string * JsVal) :=
  [ ("error", JStr "schema_parse_failed");
    ("message", JStr "Could not parse schema");
    ("parse_errors", JArr [JStr "line 1: near TABEL"]);
    ("hint", JStr "Check the dialect") ].

End Vocabulary2.

(** * Properties *)

(** ** Blank input and [trim] *)

Module JSFacts.
Import JS Vocabulary.

Lemma trimStart_allWhiteSpace (s : string) :
  allWhiteSpace (trimStart s) = allWhiteSpace s.
Proof.
  induction s as [|c s IH]; simpl; [reflexivity|].
  destruct (isWhiteSpace c) eqn:Hc; simpl; [exact IH|].
  now rewrite Hc.
Qed.

Lemma trimEnd_empty_iff (s : string) :
  trimEnd s = EmptyString <-> allWhiteSpace s = true.
Proof.
  induction s as [|c s IH]; simpl; [tauto|].
  destruct (trimEnd s) eqn:Ht.
  - destruct (isWhiteSpace c); simpl.
    + split; intros _; [now apply IH | reflexivity].
    + split; discriminate.
  - split; [discriminate|].
    intros H. apply andb_true_iff in H as [_ H].
    apply IH in H. discriminate.
Qed.

Lemma trim_empty_iff (s : string) :
  trim s = EmptyString <-> allWhiteSpace s = true.
Proof.
  unfold trim. rewrite trimEnd_empty_iff, trimStart_allWhiteSpace. tauto.
Qed.

Lemma isEmpty_true_iff (s : string) : isEmpty s = true <-> s = EmptyString.
Proof. destruct s; simpl; split; congruence. Qed.

Lemma inputIsBlank_iff (s : string) :
  DashboardShared.inputIsBlank s = allWhiteSpace s.
Proof.
  unfold DashboardShared.inputIsBlank.
  destruct (allWhiteSpace s) eqn:H.
  - apply isEmpty_true_iff, trim_empty_iff, H.
  - destruct (isEmpty (trim s)) eqn:E; [|reflexivity].
    apply isEmpty_true_iff, trim_empty_iff in E. congruence.
Qed.

(** [a || b] is never [undefined] when [b] is not. *)
Lemma or_else_defined (a b : JsVal) : b <> JUndefined -> or_else a b <> JUndefined.
Proof.
  unfold or_else. destruct (truthy a) eqn:Ha; [|tauto].
  intros _ ->. discriminate.
Qed.

End JSFacts.

(** ** The suggestion count *)

Module SuggestionCount.
Import JS Vocabulary JSFacts.

Lemma allDigits_cons (c : ascii) (s : string) :
  Dashboard008.allDigits (String c s) = true ->
  (48 <= Z.of_nat (nat_of_ascii c) <= 57)%Z /\ Dashboard008.allDigits s = true.
Proof.
  unfold Dashboard008.allDigits. cbn [list_ascii_of_string forallb]. intros H.
  apply andb_true_iff in H as [Hc Hs]. apply andb_true_iff in Hc as [H1 H2].
  apply Nat.leb_le in H1, H2. split; [lia | exact Hs].
Qed.

Lemma digitValue_digit (c : ascii) :
  (48 <= Z.of_nat (nat_of_ascii c) <= 57)%Z ->
  digitValue c = Some (Z.of_nat (nat_of_ascii c) - 48)%Z.
Proof.
  intros [H1 H2]. unfold digitValue.
  apply Z.leb_le in H1, H2. now rewrite H1, H2.
Qed.

Lemma digit_not_white (c : ascii) :
  (48 <= Z.of_nat (nat_of_ascii c) <= 57)%Z -> isWhiteSpace c = false.
Proof.
  intros H. unfold isWhiteSpace.
  repeat (apply orb_false_iff; split); apply Nat.eqb_neq; lia.
Qed.

Lemma parseDigits_digits (s : string) (acc : Z) :
  Dashboard008.allDigits s = true ->
  parseDigits 10 s (Some acc) = Some (digitsValue acc s).
Proof.
  revert acc. induction s as [|c s IH]; intros acc H; [reflexivity|].
  apply allDigits_cons in H as [Hc Hs].
  cbn [parseDigits digitsValue]. rewrite (digitValue_digit c Hc).
  assert (Hlt : (Z.of_nat (nat_of_ascii c) - 48 <? 10)%Z = true)
    by (apply Z.ltb_lt; lia).
  rewrite Hlt. exact (IH _ Hs).
Qed.

Lemma parseInt_radix10 (s : string) :
  parseInt s (Some 10%Z) =
    match parseDigits 10 (snd (splitSign (trimStart s))) None with
    | Some m => Int (fst (splitSign (trimStart s)) * m)
    | None => NaN
    end.
Proof. unfold parseInt. now destruct (splitSign (trimStart s)). Qed.

Lemma splitSign_digit (c : ascii) (s : string) :
  (48 <= Z.of_nat (nat_of_ascii c) <= 57)%Z ->
  splitSign (String c s) = (1%Z, String c s).
Proof.
  intros [Hc _].
  destruct c as [[] [] [] [] [] [] [] []]; try reflexivity;
    exfalso; apply Hc; reflexivity.
Qed.

(** On a non-empty string of decimal digits [parseInt(s, 10)] is the
    number the digits spell. *)
Lemma parseInt_digits (s : string) :
  s <> EmptyString -> Dashboard008.allDigits s = true ->
  parseInt s (Some 10%Z) = Int (digitsValue 0 s).
Proof.
  destruct s as [|c s]; [congruence|]. intros _ H.
  pose proof (allDigits_cons c s H) as [Hc Hs].
  rewrite parseInt_radix10. cbn [trimStart]. rewrite (digit_not_white c Hc).
  rewrite (splitSign_digit c s Hc). cbn [fst snd parseDigits].
  rewrite (digitValue_digit c Hc).
  assert (Hlt : (Z.of_nat (nat_of_ascii c) - 48 <? 10)%Z = true)
    by (apply Z.ltb_lt; lia).
  rewrite Hlt. rewrite (parseDigits_digits s _ Hs).
  cbn [digitsValue]. f_equal. now rewrite Z.mul_1_l.
Qed.

Lemma getValidatedSuggestions_clamp (s : string) :
  Dashboard008.getValidatedSuggestions s = Int (clamp s).
Proof.
  unfold Dashboard008.getValidatedSuggestions, clamp.
  destruct (parseInt s (Some 10%Z)) as [|n]; simpl.
  - now rewrite orb_true_r.
  - rewrite orb_false_r. now destruct (isEmpty s).
Qed.

Lemma clamp_range (s : string) : (1 <= clamp s <= 10)%Z.
Proof.
  unfold clamp. destruct (parseInt s (Some 10%Z)); [lia|].
  destruct (isEmpty s); lia.
Qed.

(** C2.  The suggestion-count clamping function of the dashboard returns 5
    for the empty string and for a string [parseInt] makes nothing of, and
    otherwise the parsed integer brought into [1, 10]; on a non-empty digit
    string that integer is the number the digits spell; and the empty
    string, 0, 15 and 7 give 5, 1, 10 and 7. *)
Theorem getValidatedSuggestions_spec :
  (forall s : string,
     Dashboard008.getValidatedSuggestions s =
       match parseInt s (Some 10%Z) with
       | NaN => Int 5
       | Int n => if isEmpty s then Int 5 else Int (Z.max 1 (Z.min 10 n))
       end)
  /\ (forall s : string,
        Dashboard008.getValidatedSuggestions s =
          if isEmpty s then Int 5
          else if Dashboard008.allDigits s
               then Int (Z.max 1 (Z.min 10 (digitsValue 0 s)))
               else Int (clamp s))
  /\ Dashboard008.getValidatedSuggestions "" = Int 5
  /\ Dashboard008.getValidatedSuggestions "0" = Int 1
  /\ Dashboard008.getValidatedSuggestions "15" = Int 10
  /\ Dashboard008.getValidatedSuggestions "7" = Int 7.
Proof.
  split; [|split; [|repeat split; reflexivity]].
  - intros s. rewrite getValidatedSuggestions_clamp. unfold clamp.
    destruct (parseInt s (Some 10%Z)); [reflexivity|]. now destruct (isEmpty s).
  - intros s. rewrite getValidatedSuggestions_clamp.
    destruct (isEmpty s) eqn:He.
    + apply isEmpty_true_iff in He. now subst.
    + destruct (Dashboard008.allDigits s) eqn:Hd; [|reflexivity].
      unfold clamp. rewrite parseInt_digits, He; [reflexivity | | exact Hd].
      intros ->. discriminate.
Qed.

(** In the variant of src/unnamed/part_008 a run with operation [suggest]
    sends the clamped count, whatever the field holds. *)
Lemma part008_sends_clamped_count (h : Host) (st : Dashboard008.State) :
  Dashboard008.operation st = "suggest" ->
  allWhiteSpace (Dashboard008.input st) = false ->
  exists req,
    snd (Dashboard008.handleRunQuery_begin h st) = Some req
    /\ lookupField "max_suggestions" (body req)
       = JNum (Int (clamp (Dashboard008.numSuggestionsInput st)))
    /\ (1 <= clamp (Dashboard008.numSuggestionsInput st) <= 10)%Z.
Proof.
  intros Hop Hin. unfold Dashboard008.handleRunQuery_begin.
  rewrite inputIsBlank_iff, Hin, Hop. eexists. split; [reflexivity|].
  split; [|apply clamp_range].
  cbn. now rewrite getValidatedSuggestions_clamp.
Qed.

(** On blur the field shows the clamped count: 12 becomes 10. *)
Lemma blur_shows_clamped_count (st : Dashboard008.State) :
  Dashboard008.numSuggestionsInput (Dashboard008.handleNumSuggestionsBlur st)
    = Num_toString (Int (clamp (Dashboard008.numSuggestionsInput st)))
  /\ Dashboard008.numSuggestionsInput
       (Dashboard008.handleNumSuggestionsBlur
          (Dashboard008.numSuggestionsChange "12" st)) = "10".
Proof.
  split; [|reflexivity].
  unfold Dashboard008.handleNumSuggestionsBlur. cbn.
  now rewrite getValidatedSuggestions_clamp.
Qed.

(** C1.  In the variant of src/unnamed/part_009 the count typed into the
    number field reaches the request as typed: with 15 in the field, a
    [suggest] run posts [max_suggestions: 15], outside [1, 10]. *)
Theorem part009_sends_unclamped_count :
  exists req,
    Dashboard009.handleRunQuery_begin exampleHost part009_fifteen
      = (Dashboard009.setOutput None
           (Dashboard009.setIsLoading true (Dashboard009.setError "" part009_fifteen)),
         Some req)
    /\ url req = "http://localhost:8000/suggest-next"
    /\ lookupField "max_suggestions" (body req) = JNum (Int 15)
    /\ ~ (1 <= 15 <= 10)%Z.
Proof.
  eexists. split; [reflexivity|]. split; [reflexivity|]. split; [reflexivity|]. lia.
Qed.

End SuggestionCount.

(** ** Running a query *)

Module RunQuery.
Import JS Vocabulary JSFacts Variants.

Lemma blank_run (h : Host) (net : Request -> FetchOutcome) (st : Dashboard.State) :
  allWhiteSpace (Dashboard.input st) = true ->
  Dashboard.handleRunQuery h net st
    = (Dashboard.setError "Please enter a query or description" st, []).
Proof.
  intros H. unfold Dashboard.handleRunQuery, Dashboard.handleRunQuery_begin.
  now rewrite inputIsBlank_iff, H.
Qed.

Lemma blank_run009 (h : Host) (net : Request -> FetchOutcome) (st : Dashboard009.State) :
  allWhiteSpace (Dashboard009.input st) = true ->
  Dashboard009.handleRunQuery h net st
    = (Dashboard009.setError "Please enter a query or description" st, []).
Proof.
  intros H. unfold Dashboard009.handleRunQuery, Dashboard009.handleRunQuery_begin.
  now rewrite inputIsBlank_iff, H.
Qed.

Lemma blank_run008 (h : Host) (net : Request -> FetchOutcome) (st : Dashboard008.State) :
  allWhiteSpace (Dashboard008.input st) = true ->
  Dashboard008.handleRunQuery h net st
    = (Dashboard008.setError "Please enter a query or description" st, []).
Proof.
  intros H. unfold Dashboard008.handleRunQuery, Dashboard008.handleRunQuery_begin.
  now rewrite inputIsBlank_iff, H.
Qed.

(** C3.  In every variant of the dashboard, with an input that is empty or
    white space only the run action issues no request, keeps the output it
    had and sets the error to "Please enter a query or description". *)
Theorem blank_input_rejected_locally
    (v : Variant) (h : Host) (net : Request -> FetchOutcome)
    (st : PageState (pageOf v)) :
  allWhiteSpace (pageInput (pageOf v) st) = true ->
  snd (pageHandleRunQuery (pageOf v) h net st) = []
  /\ pageOutput (pageOf v) (fst (pageHandleRunQuery (pageOf v) h net st))
     = pageOutput (pageOf v) st
  /\ pageError (pageOf v) (fst (pageHandleRunQuery (pageOf v) h net st))
     = "Please enter a query or description".
Proof.
  destruct v; cbn [pageOf PageState pageInput pageOutput pageError pageHandleRunQuery]
    in *; intros H.
  - rewrite (blank_run h net st H). repeat split.
  - rewrite (blank_run009 h net st H). repeat split.
  - rewrite (blank_run008 h net st H). repeat split.
Qed.

Lemma blank_input_rejected_locally_witness :
  snd (Dashboard008.handleRunQuery exampleHost
         (fun _ => Response true (Normal (JObj []))) blankInputPage) = []
  /\ Dashboard008.output
       (fst (Dashboard008.handleRunQuery exampleHost
               (fun _ => Response true (Normal (JObj []))) blankInputPage))
     = Some [("sql", JStr "SELECT 1")]
  /\ Dashboard008.error
       (fst (Dashboard008.handleRunQuery exampleHost
               (fun _ => Response true (Normal (JObj []))) blankInputPage))
     = "Please enter a query or description".
Proof.
  exact (blank_input_rejected_locally Part008 exampleHost
           (fun _ => Response true (Normal (JObj []))) blankInputPage eq_refl).
Defined.

(** A run with a non-blank input does issue its request. *)
Lemma nonblank_run_fetches (h : Host) (net : Request -> FetchOutcome) (st : Dashboard.State) :
  allWhiteSpace (Dashboard.input st) = false ->
  length (snd (Dashboard.handleRunQuery h net st)) = 1%nat.
Proof.
  intros H. unfold Dashboard.handleRunQuery, Dashboard.handleRunQuery_begin.
  now rewrite inputIsBlank_iff, H.
Qed.

(** *** Switching the operation *)

(** The effect changes the operation only for a present, non-empty
    parameter. *)
Lemma searchParamsEffect_changes (v : Variant) (p : option string)
    (st : PageState (pageOf v)) :
  pageOperation (pageOf v) (pageSearchParamsEffect (pageOf v) p st)
    <> pageOperation (pageOf v) st ->
  exists o, p = Some o /\ isEmpty o = false.
Proof.
  destruct v, p as [o|]; simpl; try congruence;
    (destruct (isEmpty o) eqn:Ho; [congruence|]);
    intros _; exists o; now split.
Qed.

(** C5.  In every variant of the dashboard, whenever the [op] URL
    parameter is present and not empty, the effect makes it the operation
    and clears the input text, the output and the error message, whatever
    the state was; running the effect a second time with the same
    parameter changes nothing more; and the effect changes the operation in
    no other case. *)
Theorem operation_change_clears
    (v : Variant) (o : string) (st : PageState (pageOf v)) :
  isEmpty o = false ->
  pageOperation (pageOf v) (pageSearchParamsEffect (pageOf v) (Some o) st) = o
  /\ pageInput (pageOf v) (pageSearchParamsEffect (pageOf v) (Some o) st) = ""
  /\ pageOutput (pageOf v) (pageSearchParamsEffect (pageOf v) (Some o) st) = None
  /\ pageError (pageOf v) (pageSearchParamsEffect (pageOf v) (Some o) st) = ""
  /\ pageSearchParamsEffect (pageOf v) (Some o)
       (pageSearchParamsEffect (pageOf v) (Some o) st)
     = pageSearchParamsEffect (pageOf v) (Some o) st
  /\ (forall p : option string,
        pageOperation (pageOf v) (pageSearchParamsEffect (pageOf v) p st)
          <> pageOperation (pageOf v) st ->
        exists o', p = Some o' /\ isEmpty o' = false).
Proof.
  intros Ho.
  assert (Hmain :
    pageOperation (pageOf v) (pageSearchParamsEffect (pageOf v) (Some o) st) = o
    /\ pageInput (pageOf v) (pageSearchParamsEffect (pageOf v) (Some o) st) = ""
    /\ pageOutput (pageOf v) (pageSearchParamsEffect (pageOf v) (Some o) st) = None
    /\ pageError (pageOf v) (pageSearchParamsEffect (pageOf v) (Some o) st) = ""
    /\ pageSearchParamsEffect (pageOf v) (Some o)
         (pageSearchParamsEffect (pageOf v) (Some o) st)
       = pageSearchParamsEffect (pageOf v) (Some o) st).
  { destruct v; simpl; rewrite Ho; simpl; rewrite ?Ho; repeat split. }
  destruct Hmain as (H1 & H2 & H3 & H4 & H5).
  repeat (split; [assumption|]).
  intros p. apply searchParamsEffect_changes.
Qed.

Lemma operation_change_clears_witness :
  Dashboard008.operation (Dashboard008.searchParamsEffect (Some "fix") blankInputPage)
    = "fix"
  /\ Dashboard008.input (Dashboard008.searchParamsEffect (Some "fix") blankInputPage) = ""
  /\ Dashboard008.output (Dashboard008.searchParamsEffect (Some "fix") blankInputPage)
     = None
  /\ Dashboard008.error (Dashboard008.searchParamsEffect (Some "fix") blankInputPage) = "".
Proof.
  pose proof (operation_change_clears Part008 "fix" blankInputPage eq_refl)
    as (H0 & H1 & H2 & H3 & _).
  exact (conj H0 (conj H1 (conj H2 H3))).
Defined.

(** The reset is idempotent whether or not it changes the operation. *)
Lemma searchParamsEffect_idempotent (v : Variant) (p : option string)
    (st : PageState (pageOf v)) :
  pageSearchParamsEffect (pageOf v) p (pageSearchParamsEffect (pageOf v) p st)
    = pageSearchParamsEffect (pageOf v) p st.
Proof.
  destruct v, p as [o|]; simpl; try reflexivity;
    destruct (isEmpty o) eqn:Ho; simpl; now rewrite ?Ho.
Qed.

(** Without the parameter, or with an empty one, the effect does nothing:
    the operation and the three fields stay. *)
Lemma searchParamsEffect_absent (v : Variant) (st : PageState (pageOf v)) :
  pageSearchParamsEffect (pageOf v) None st = st
  /\ pageSearchParamsEffect (pageOf v) (Some "") st = st.
Proof. destruct v; split; reflexivity. Qed.

End RunQuery.

(** ** Operation codes, endpoints and payloads *)

Module Workflow.
Import JS Vocabulary JSFacts.

Lemma not_dispatched (s : string) :
  ~ In s dispatchedCodes ->
  String.eqb s "generate" = false /\ String.eqb s "fix" = false
  /\ String.eqb s "explain" = false /\ String.eqb s "optimize" = false
  /\ String.eqb s "suggest" = false.
Proof.
  intros H. repeat split; apply String.eqb_neq; intros ->; apply H; simpl; tauto.
Qed.

(** The route of each of the six codes in frontend/src/pages/Dashboard.tsx:
    endpoint and keys of the body sent. *)
Lemma routes (input : string) :
  map (fun c => (c, Dashboard.endpoint c,
                 map fst (sentFields (Dashboard.payload c input))))
      operationCodes
  = [ ("generate", "/generate-sql", ["question"; "db_key"; "max_rows"]);
      ("fix", "/fix-sql", ["sql"; "db_key"; "max_rows"]);
      ("explain", "/explain-sql", ["sql"; "db_key"; "max_rows"]);
      ("optimize", "/optimize-sql", ["sql"; "db_key"; "max_rows"]);
      ("suggest", "/suggest-next", ["sql"; "db_key"; "max_rows"]);
      ("join", "/generate-sql", ["sql"; "db_key"; "max_rows"]) ].
Proof. reflexivity. Qed.

(** The same in src/unnamed/part_008. *)
Lemma routes008 (input db : string) (n : Num) :
  map (fun c => (c, Dashboard008.endpoint c,
                 map fst (sentFields (Dashboard008.payload c input db n))))
      operationCodes
  = [ ("generate", "/api/generate-sql",
         ["db_key"; "max_rows"; "database_type"; "question"]);
      ("fix", "/api/fix-sql", ["db_key"; "max_rows"; "database_type"; "sql"]);
      ("explain", "/api/explain-sql", ["db_key"; "max_rows"; "database_type"; "sql"]);
      ("optimize", "/api/optimize-sql", ["db_key"; "max_rows"; "database_type"; "sql"]);
      ("suggest", "/api/suggest-next",
         ["db_key"; "max_rows"; "database_type"; "sql"; "max_suggestions"]);
      ("join", "/api/generate-sql", ["db_key"; "max_rows"; "database_type"; "sql"]) ].
Proof. destruct n; reflexivity. Qed.

(** C4, as stated, fails: an operation outside the six codes, such as
    [foo] from [?op=foo], goes to the endpoint of [generate] but its body
    carries the input under [sql], where the body of [generate] carries it
    under [question]. *)
Lemma unknown_operation_differs_from_generate :
  ~ In "foo" operationCodes
  /\ Dashboard.operation (Dashboard.searchParamsEffect (Some "foo") Dashboard.initialState)
     = "foo"
  /\ Dashboard.endpoint "foo" = Dashboard.endpoint "generate"
  /\ sentFields (Dashboard.payload "foo" "all users")
     = [("sql", JStr "all users"); ("db_key", JStr "default"); ("max_rows", JNum (Int 100))]
  /\ sentFields (Dashboard.payload "generate" "all users")
     = [("question", JStr "all users"); ("db_key", JStr "default");
        ("max_rows", JNum (Int 100))]
  /\ map fst (sentFields (Dashboard.payload "foo" "all users"))
     <> map fst (sentFields (Dashboard.payload "generate" "all users")).
Proof.
  repeat split; try reflexivity.
  - simpl. intros H. repeat (destruct H as [H|H]; [discriminate H|]). exact H.
  - discriminate.
Qed.

(** C4, amended.  Each of the six codes has an entry with a non-empty label
    and description in the selector table and a fixed endpoint and body
    shape in the dashboard; an operation that is none of [generate], [fix],
    [explain], [optimize], [suggest] (this includes [join]) is sent to the
    endpoint of [generate] with the input under [sql] and without
    [max_suggestions]. *)
Theorem operation_routing (s input : string) :
  ~ In s dispatchedCodes ->
  Forall (fun c => exists op,
            OperationSelector.entryFor c = Some op
            /\ OperationSelector.value op = c
            /\ OperationSelector.label op <> ""
            /\ OperationSelector.description op <> "")
         operationCodes
  /\ map (fun c => (c, Dashboard.endpoint c,
                    map fst (sentFields (Dashboard.payload c input))))
         operationCodes
     = [ ("generate", "/generate-sql", ["question"; "db_key"; "max_rows"]);
         ("fix", "/fix-sql", ["sql"; "db_key"; "max_rows"]);
         ("explain", "/explain-sql", ["sql"; "db_key"; "max_rows"]);
         ("optimize", "/optimize-sql", ["sql"; "db_key"; "max_rows"]);
         ("suggest", "/suggest-next", ["sql"; "db_key"; "max_rows"]);
         ("join", "/generate-sql", ["sql"; "db_key"; "max_rows"]) ]
  /\ Dashboard.endpoint s = Dashboard.endpoint "generate"
  /\ sentFields (Dashboard.payload s input)
     = [("sql", JStr input); ("db_key", JStr "default"); ("max_rows", JNum (Int 100))].
Proof.
  intros H. destruct (not_dispatched s H) as (Hg & Hf & He & Ho & Hs).
  split; [|split; [apply routes|]].
  - repeat constructor; eexists; (split; [reflexivity|]);
      (split; [reflexivity|]); split; discriminate.
  - unfold Dashboard.endpoint, Dashboard.payload.
    rewrite Hg, Hf, He, Ho, Hs. split; reflexivity.
Qed.

Lemma operation_routing_witness :
  Dashboard.endpoint "foo" = Dashboard.endpoint "generate"
  /\ sentFields (Dashboard.payload "foo" "all users")
     = [("sql", JStr "all users"); ("db_key", JStr "default"); ("max_rows", JNum (Int 100))].
Proof.
  assert (H : ~ In "foo" dispatchedCodes).
  { simpl. intros H. repeat (destruct H as [H|H]; [discriminate H|]). exact H. }
  exact (proj2 (proj2 (operation_routing "foo" "all users" H))).
Defined.

(** The amended statement holds of src/unnamed/part_008 as well, where
    only [suggest] adds [max_suggestions]. *)
Lemma operation_routing008 (s input db : string) (n : Num) :
  ~ In s dispatchedCodes ->
  Dashboard008.endpoint s = Dashboard008.endpoint "generate"
  /\ sentFields (Dashboard008.payload s input db n)
     = [("db_key", JStr "default"); ("max_rows", JNum (Int 100));
        ("database_type", JStr db); ("sql", JStr input)].
Proof.
  intros H. destruct (not_dispatched s H) as (Hg & Hf & He & Ho & Hs).
  unfold Dashboard008.endpoint, Dashboard008.payload.
  rewrite Hg, Hf, He, Ho, Hs. split; reflexivity.
Qed.

End Workflow.

(** ** Normalising the response *)

Module Normalisation.
Import JS Vocabulary Vocabulary2 JSFacts.

Lemma getProp_defined (data : JsVal) (k : string) :
  data <> JNull -> data <> JUndefined -> getProp data k = Some (getPropOpt data k).
Proof. intros H1 H2. destruct data; try reflexivity; congruence. Qed.

Lemma or_else_present (v d : JsVal) : truthy v = true -> or_else v d = v.
Proof. unfold or_else. now intros ->. Qed.

(** C7, as stated, fails: after a successful [generate] run the stored
    object is [{sql, explanation}], and of the three values the page hands
    to [QueryOutput] the [suggestions] one is [undefined]. *)
Lemma non_suggest_run_hands_undefined_suggestions :
  Dashboard008.output
    (fst (Dashboard008.handleRunQuery exampleHost
            (fun _ => Response true (Normal generateAnswer)) generateRun))
  = Some [("sql", JStr "SELECT * FROM users"); ("explanation", JStr "All users")]
  /\ Dashboard008.queryOutputProps
       (fst (Dashboard008.handleRunQuery exampleHost
               (fun _ => Response true (Normal generateAnswer)) generateRun))
     = (JStr "SELECT * FROM users", JStr "All users", JUndefined).
Proof. split; reflexivity. Qed.

(** C7, amended.  A successful run of the dashboard (src/unnamed/part_008:
    success status and a body that is not [null]) stores, for operation
    [suggest], the object [{suggestions, explanation}] taken from [queries]
    and [notes] of the body, and for any other operation the object
    [{sql, explanation}] taken from [sql] and [explanation]; a field missing
    from the body becomes the empty list for [suggestions] and the empty
    string otherwise, one that is present with a non-empty value is taken as
    it is, and no field the stored object has is [undefined]; the error
    stays empty and loading ends.  Of what the page then hands to
    [QueryOutput], [sql] and [explanation] are never [undefined], and
    [suggestions] is defined after a [suggest] run and [undefined] after a
    run of any other operation. *)
Theorem successful_run_normalises
    (h : Host) (net : Request -> FetchOutcome) (st : Dashboard008.State)
    (req : Request) (data : JsVal) :
  snd (Dashboard008.handleRunQuery_begin h st) = Some req ->
  net req = Response true (Normal data) ->
  data <> JNull -> data <> JUndefined ->
  let st' := fst (Dashboard008.handleRunQuery h net st) in
  let field k d := or_else (getPropOpt data k) d in
  let handed := Dashboard008.queryOutputProps st' in
  Dashboard008.output st'
    = Some (if String.eqb (Dashboard008.operation st) "suggest"
            then [("suggestions", field "queries" (JArr []));
                  ("explanation", field "notes" (JStr ""))]
            else [("sql", field "sql" (JStr ""));
                  ("explanation", field "explanation" (JStr ""))])
  /\ (forall k d, getPropOpt data k = JUndefined -> field k d = d)
  /\ (forall k d, truthy (getPropOpt data k) = true -> field k d = getPropOpt data k)
  /\ (forall o, Dashboard008.output st' = Some o ->
        Forall (fun kv => snd kv <> JUndefined) o)
  /\ Dashboard008.error st' = ""
  /\ Dashboard008.isLoading st' = false
  /\ fst (fst handed) <> JUndefined
  /\ snd (fst handed) <> JUndefined
  /\ (Dashboard008.operation st = "suggest" -> snd handed <> JUndefined)
  /\ (Dashboard008.operation st <> "suggest" -> snd handed = JUndefined).
Proof.
  intros Hreq Hnet Hn Hu st' field handed. subst handed st'.
  unfold Dashboard008.handleRunQuery.
  destruct (Dashboard008.handleRunQuery_begin h st) as [st1 r] eqn:Hb.
  simpl in Hreq. subst r. cbn [fst]. rewrite Hnet.
  assert (Herr : Dashboard008.error st1 = "").
  { unfold Dashboard008.handleRunQuery_begin in Hb.
    destruct (DashboardShared.inputIsBlank (Dashboard008.input st)); [discriminate|].
    injection Hb as <- _. reflexivity. }
  unfold Dashboard008.handleRunQuery_resume,
    DashboardShared.suggestResult, DashboardShared.sqlResult.
  rewrite !(getProp_defined data _ Hn Hu).
  split; [now destruct (String.eqb (Dashboard008.operation st) "suggest")|].
  split; [intros k d Hk; unfold field; now rewrite Hk|].
  split; [intros k d Hk; now apply or_else_present|].
  destruct (String.eqb (Dashboard008.operation st) "suggest") eqn:Hop.
  - apply String.eqb_eq in Hop. cbn.
    split; [intros o Ho; injection Ho as <-;
            repeat constructor; apply or_else_defined; discriminate|].
    split; [exact Herr|]. split; [reflexivity|].
    split; [discriminate|].
    split; [apply or_else_defined; discriminate|].
    split; [intros _; apply or_else_defined; discriminate | congruence].
  - apply String.eqb_neq in Hop. cbn.
    split; [intros o Ho; injection Ho as <-;
            repeat constructor; apply or_else_defined; discriminate|].
    split; [exact Herr|]. split; [reflexivity|].
    split; [apply or_else_defined; discriminate|].
    split; [apply or_else_defined; discriminate|].
    split; [congruence | reflexivity].
Qed.

Lemma successful_run_normalises_witness :
  Dashboard008.output
    (fst (Dashboard008.handleRunQuery exampleHost
            (fun _ => Response true (Normal suggestAnswer)) suggestRun))
  = Some [("suggestions", JArr [JObj [("sql", JStr "SELECT 2"); ("title", JStr "Next")]]);
          ("explanation", JStr "")].
Proof.
  refine (proj1 (successful_run_normalises exampleHost
                   (fun _ => Response true (Normal suggestAnswer)) suggestRun _
                   suggestAnswer eq_refl eq_refl _ _)); discriminate.
Defined.

(** What reaches [QueryOutput] after a successful run: [sql] and
    [explanation] are never [undefined], and [suggestions] is not after a
    [suggest] run. *)
Lemma props_after_success (h : Host) (op : string) (data : JsVal) (cur : Dashboard008.State) :
  data <> JNull -> data <> JUndefined ->
  let '(sql, explanation, suggestions) :=
    Dashboard008.queryOutputProps
      (Dashboard008.handleRunQuery_resume h op (Response true (Normal data)) cur) in
  sql <> JUndefined /\ explanation <> JUndefined
  /\ (op = "suggest" -> suggestions <> JUndefined).
Proof.
  intros Hn Hu.
  unfold Dashboard008.handleRunQuery_resume, DashboardShared.suggestResult,
    DashboardShared.sqlResult, Dashboard008.queryOutputProps.
  rewrite !(getProp_defined data _ Hn Hu).
  destruct (String.eqb op "suggest") eqn:Hop; cbn.
  - split; [discriminate|].
    split; [|intros _]; apply or_else_defined; discriminate.
  - apply String.eqb_neq in Hop.
    split; [|split; [|congruence]]; apply or_else_defined; discriminate.
Qed.

End Normalisation.

(** ** Workspace settings in local storage *)

Module Settings.
Import JS Vocabulary JSFacts OnboardingPage.

(** *** Keys *)

Lemma selectedDbKey_inj (x y : JsVal) :
  selectedDbKey x = selectedDbKey y -> ToString x = ToString y.
Proof. unfold selectedDbKey. cbv [String.append]. congruence. Qed.

Lemma lastSchemaKey_inj (x y : JsVal) :
  lastSchemaKey x = lastSchemaKey y -> ToString x = ToString y.
Proof. unfold lastSchemaKey. cbv [String.append]. congruence. Qed.

Lemma onboardingCompletedKey_inj (x y : JsVal) :
  onboardingCompletedKey x = onboardingCompletedKey y -> ToString x = ToString y.
Proof. unfold onboardingCompletedKey. cbv [String.append]. congruence. Qed.

Lemma selectedDb_lastSchema (x y : JsVal) : selectedDbKey x <> lastSchemaKey y.
Proof. unfold selectedDbKey, lastSchemaKey. cbv [String.append]. discriminate. Qed.

Lemma selectedDb_onboardingCompleted (x y : JsVal) :
  selectedDbKey x <> onboardingCompletedKey y.
Proof. unfold selectedDbKey, onboardingCompletedKey. cbv [String.append]. discriminate. Qed.

Lemma lastSchema_onboardingCompleted (x y : JsVal) :
  lastSchemaKey x <> onboardingCompletedKey y.
Proof. unfold lastSchemaKey, onboardingCompletedKey. cbv [String.append]. discriminate. Qed.

(** Keys of two e-mails coincide only for the same setting of the same
    e-mail. *)
Lemma settingKey_inj (k k' : Setting) (a b : string) :
  settingKey k a = settingKey k' b -> k = k' /\ a = b.
Proof.
  destruct k, k'; cbn [settingKey]; intros H;
    try (split; [reflexivity|]);
    first [ exact (selectedDbKey_inj _ _ H)
          | exact (lastSchemaKey_inj _ _ H)
          | exact (onboardingCompletedKey_inj _ _ H)
          | exfalso; revert H;
            first [ apply selectedDb_lastSchema
                  | apply selectedDb_onboardingCompleted
                  | apply lastSchema_onboardingCompleted
                  | apply not_eq_sym;
                    first [ apply selectedDb_lastSchema
                          | apply selectedDb_onboardingCompleted
                          | apply lastSchema_onboardingCompleted ] ] ].
Qed.

(** *** Reads after a write under another e-mail *)

Lemma readSettings_insert_other (a b : string) (k : Setting) (v : string)
    (storage : gmap string string) :
  a <> b ->
  readSettings (<[settingKey k a := v]> storage) b = readSettings storage b.
Proof.
  intros Hab.
  assert (Hne : forall k', settingKey k a <> settingKey k' b)
    by (intros k' H; apply settingKey_inj in H as [_ H]; contradiction).
  unfold readSettings, readDatabase, readSchema, readCompleted, getItemOr.
  rewrite (lookup_insert_ne _ _ _ _ (Hne Dialect)).
  rewrite (lookup_insert_ne _ _ _ _ (Hne SchemaText)).
  rewrite (lookup_insert_ne _ _ _ _ (Hne CompletedFlag)).
  reflexivity.
Qed.

Lemma readSettings_writes_other (b : string) (ws : list (string * Setting * string))
    (storage : gmap string string) :
  Forall (fun w => fst (fst w) <> b) ws ->
  readSettings (foldr writeSetting storage ws) b = readSettings storage b.
Proof.
  induction 1 as [|[[a k] v] ws Ha _ IH]; [reflexivity|].
  cbn [foldr writeSetting]. rewrite readSettings_insert_other; [exact IH | exact Ha].
Qed.

Lemma readSettings_empty (b : string) : readSettings ∅ b = defaultSettings.
Proof.
  unfold readSettings, readDatabase, readSchema, readCompleted, getItemOr.
  now rewrite !lookup_empty.
Qed.

(** *** What the two handlers write *)

Lemma uploadRejected_footprint (userEmail : JsVal) (sch db : string)
    (json : Completion JsVal) (w : World) :
  completeFootprint userEmail sch db w (endWorld (uploadRejected json w)).
Proof.
  unfold uploadRejected, completeFootprint.
  destruct (getProp _ "detail") as [detail|]; [|cbn; tauto].
  destruct (truthy detail && typeofObject detail); [|cbn; tauto].
  destruct (strictEqStr _ "schema_dialect_mismatch"); [cbn; tauto|].
  destruct (strictEqStr _ "schema_parse_failed"); [cbn; tauto|].
  destruct (truthy _); cbn; tauto.
Qed.

Lemma uploadAccepted_footprint (userEmail : JsVal) (sch db : string)
    (completed : bool) (json : Completion JsVal) (w : World) :
  completeFootprint userEmail sch db w
    (endWorld (uploadAccepted userEmail sch db completed json w)).
Proof.
  unfold uploadAccepted, completeFootprint.
  destruct json as [data|e]; [|cbn; tauto].
  destruct (getProp data "warning") as [warning|]; [|cbn; tauto].
  destruct (truthy warning), completed; cbn; tauto.
Qed.

Lemma handleComplete_resume_footprint (h : Host) (userEmail : JsVal)
    (sch db : string) (completed : bool) (outcome : FetchOutcome) (w : World) :
  completeFootprint userEmail sch db w
    (handleComplete_resume h userEmail sch db completed outcome w).
Proof.
  unfold handleComplete_resume.
  destruct outcome as [e|[] json].
  - unfold completeFootprint. cbn. tauto.
  - pose proof (uploadAccepted_footprint userEmail sch db completed json w) as H.
    destruct (uploadAccepted _ _ _ _ _ _); exact H.
  - pose proof (uploadRejected_footprint userEmail sch db json w) as H.
    destruct (uploadRejected _ _); exact H.
Qed.

(** [handleComplete] keeps the typed schema and the dialect, and leaves
    the storage and the completed state as they were or stores the three
    settings of its e-mail and completes the page. *)
Lemma handleComplete_footprint (h : Host) (userEmail : JsVal)
    (net : Request -> FetchOutcome) (w : World) :
  completeFootprint userEmail (schema (page w)) (database (page w)) w
    (handleComplete h userEmail net w).
Proof.
  unfold handleComplete.
  destruct (isEmpty (trim (schema (page w)))).
  - unfold completeFootprint. cbn. tauto.
  - exact (handleComplete_resume_footprint h userEmail (schema (page w))
             (database (page w)) (onboardingCompleted (page w)) _
             (emit (Fetched (uploadRequest h (schema (page w)) (database (page w))))
                   (onPage (setIsLoading true) w))).
Qed.

Lemma handleComplete_storage (h : Host) (userEmail : JsVal)
    (net : Request -> FetchOutcome) (w : World) :
  localStorage (handleComplete h userEmail net w) = localStorage w
  \/ localStorage (handleComplete h userEmail net w)
     = savedStorage userEmail (schema (page w)) (database (page w)) (localStorage w).
Proof.
  destruct (handleComplete_footprint h userEmail net w) as (_ & _ & [[H _]|[H _]]);
    [now left | now right].
Qed.

Lemma handleSkip_storage (userEmail : JsVal) (w : World) :
  localStorage (handleSkip userEmail w)
  = <[selectedDbKey userEmail := database (page w)]>
      (<[onboardingCompletedKey userEmail := "true"]> (localStorage w)).
Proof. reflexivity. Qed.

(** C9.  Settings are kept apart by e-mail: for distinct e-mails [a] and
    [b], neither handler of the onboarding page run under [a] changes what
    is read under [b]; no sequence of writes of dialect, schema text or
    flag under e-mails other than [b] does; and after such writes to an
    empty storage the reads under [b] are still the defaults ([mysql], no
    schema, not completed). *)
Theorem workspace_settings_isolated
    (a b : string) (h : Host) (net : Request -> FetchOutcome) (w : World)
    (ws : list (string * Setting * string)) :
  a <> b ->
  Forall (fun x => fst (fst x) <> b) ws ->
  readSettings (localStorage (handleComplete h (JStr a) net w)) b
    = readSettings (localStorage w) b
  /\ readSettings (localStorage (handleSkip (JStr a) w)) b
     = readSettings (localStorage w) b
  /\ readSettings (foldr writeSetting (localStorage w) ws) b
     = readSettings (localStorage w) b
  /\ readSettings (foldr writeSetting ∅ ws) b = defaultSettings.
Proof.
  intros Hab Hws. split; [|split; [|split]].
  - destruct (handleComplete_storage h (JStr a) net w) as [-> | ->]; [reflexivity|].
    unfold savedStorage.
    rewrite (readSettings_insert_other a b SchemaText), 
      (readSettings_insert_other a b Dialect),
      (readSettings_insert_other a b CompletedFlag); auto.
  - rewrite handleSkip_storage.
    rewrite (readSettings_insert_other a b Dialect),
      (readSettings_insert_other a b CompletedFlag); auto.
  - now apply readSettings_writes_other.
  - rewrite readSettings_writes_other; [apply readSettings_empty | exact Hws].
Qed.

End Settings.

Module SettingsRuns.
Import JS Vocabulary JSFacts OnboardingPage Settings.

Lemma workspace_settings_isolated_witness :
  readSettings
    (localStorage (handleSkip (JStr "a@x.com") freshSqliteWorld)) "b@y.com"
  = readSettings (localStorage freshSqliteWorld) "b@y.com"
  /\ readSettings (foldr writeSetting ∅ otherWrites) "b@y.com" = defaultSettings.
Proof.
  assert (Hab : "a@x.com" <> "b@y.com") by discriminate.
  assert (Hws : Forall (fun x => fst (fst x) <> "b@y.com") otherWrites)
    by (repeat constructor; discriminate).
  pose proof (workspace_settings_isolated "a@x.com" "b@y.com" exampleHost
                (fun _ => Response true (Normal (JObj []))) freshSqliteWorld
                otherWrites Hab Hws) as (_ & H2 & _ & H4).
  exact (conj H2 H4).
Defined.

(** *** Storage written by the page alone *)





(** *** The invariant of the page *)





(** *** Skipping *)


(** Skip writes nothing that depends on the schema typed into the page. *)
Lemma handleSkip_ignores_schema (userEmail : JsVal) (typed : string) (w : World) :
  localStorage (handleSkip userEmail (onPage (setSchema typed) w))
  = localStorage (handleSkip userEmail w).
Proof. reflexivity. Qed.



End SettingsRuns.

(** ** A rejected schema upload *)

Module SchemaUpload.
Import JS Vocabulary JSFacts OnboardingPage.

(** C8.  When the upload of a non-blank schema is answered with a
    non-success status and a body whose [detail] is an object with [error]
    equal to [schema_dialect_mismatch], [handleComplete] of
    src/unnamed/part_006 shows the error toast "Schema Dialect Mismatch"
    with the [message] of that object as its description, writes nothing to
    local storage (so the onboarding flag is not set), does not navigate,
    and leaves the schema text, the dialect and the completed state of the
    page as they were, with loading ended. *)
Theorem dialect_mismatch_keeps_schema
    (h : Host) (userEmail : JsVal) (net : Request -> FetchOutcome) (w : World)
    (errorData detail : list (string * JsVal)) :
  allWhiteSpace (schema (page w)) = false ->
  net (uploadRequest h (schema (page w)) (database (page w)))
    = Response false (Normal (JObj errorData)) ->
  lookupField "detail" errorData = JObj detail ->
  lookupField "error" detail = JStr "schema_dialect_mismatch" ->
  let w' := handleComplete h userEmail net w in
  events w'
    = events w
      ++ [ Fetched (uploadRequest h (schema (page w)) (database (page w)));
           ToastError (JStr "Schema Dialect Mismatch") (lookupField "message" detail)
                      (Some 8000%Z) ]
  /\ localStorage w' = localStorage w
  /\ localStorage w' !! onboardingCompletedKey userEmail
     = localStorage w !! onboardingCompletedKey userEmail
  /\ (forall path, ~ In (Navigated path) (skipn (length (events w)) (events w')))
  /\ schema (page w') = schema (page w)
  /\ database (page w') = database (page w)
  /\ onboardingCompleted (page w') = onboardingCompleted (page w)
  /\ isLoading (page w') = false.
Proof.
  intros Hs Hnet Hd He w'. subst w'. unfold handleComplete.
  assert (Hb : isEmpty (trim (schema (page w))) = false).
  { pose proof (inputIsBlank_iff (schema (page w))) as Hb.
    unfold DashboardShared.inputIsBlank in Hb. congruence. }
  rewrite Hb, Hnet.
  unfold handleComplete_resume, uploadRejected.
  cbn [getProp]. rewrite Hd. cbn [truthy typeofObject andb getPropOpt getProp].
  rewrite He. cbn.
  rewrite <- app_assoc. cbn [app].
  split; [reflexivity|]. split; [reflexivity|]. split; [reflexivity|].
  split; [|repeat split].
  intros path. rewrite skipn_app, skipn_all, Nat.sub_diag. cbn.
  intros [H|[H|[]]]; discriminate H.
Qed.

Lemma dialect_mismatch_keeps_schema_witness :
  let w' := handleComplete exampleHost (JStr "a@x.com")
              (fun _ => Response false (Normal mismatchBody)) typedWorld in
  schema (page w') = "CREATE TABLE t (id SERIAL);"
  /\ localStorage w' = ∅
  /\ events w'
     = [ Fetched (uploadRequest exampleHost "CREATE TABLE t (id SERIAL);" "mysql");
         ToastError (JStr "Schema Dialect Mismatch")
                    (JStr "Schema looks like PostgreSQL") (Some 8000%Z) ].
Proof.
  intros w'.
  pose proof (dialect_mismatch_keeps_schema exampleHost (JStr "a@x.com")
                (fun _ => Response false (Normal mismatchBody)) typedWorld
                [("detail", JObj mismatchDetail)] mismatchDetail
                eq_refl eq_refl eq_refl eq_refl) as (H1 & H2 & _ & _ & H5 & _).
  exact (conj H5 (conj H2 H1)).
Defined.

End SchemaUpload.

(** ** The stored identity at start-up *)

Module StoredIdentity.
Import JS Vocabulary JSFacts.

(** Without a stored entry the provider starts with no identity. *)
Lemma initialUser_absent (h : Host) (sessionStorage : gmap string string) :
  sessionStorage !! "auth_user" = None ->
  AuthContext.initialUser h sessionStorage = Normal JNull.
Proof. unfold AuthContext.initialUser. now intros ->. Qed.

(** With an entry that [JSON.parse] rejects, the initializer throws what
    [JSON.parse] throws. *)
Lemma initialUser_unparsable (h : Host) (sessionStorage : gmap string string)
    (saved : string) (e : Thrown) :
  sessionStorage !! "auth_user" = Some saved ->
  saved <> "" ->
  JSON_parse h saved = Throw e ->
  AuthContext.initialUser h sessionStorage = Throw e.
Proof.
  unfold AuthContext.initialUser. intros -> Hs Hp.
  destruct saved; [congruence|]. exact Hp.
Qed.

(** C6.  With the malformed entry [{bad] under [auth_user], the
    initializer of the provider's [user] state throws the SyntaxError of
    [JSON.parse] instead of starting with no identity, while the onboarding
    page and the dashboard of src/unnamed/part_008, which read the same
    entry inside [try]/[catch], fall back to the e-mail [default]. *)
Theorem initialUser_throws_on_malformed_entry :
  AuthContext.initialUser exampleHost malformedSession
    = Throw (ThrownError "Unexpected token")
  /\ OnboardingPage.userEmail exampleHost malformedSession JNull = JStr "default"
  /\ Dashboard008.initialDatabaseType exampleHost malformedSession ∅ = "mysql"
  /\ AuthContext.initialUser exampleHost ∅ = Normal JNull.
Proof. repeat split; vm_compute; reflexivity. Qed.

End StoredIdentity.

(** ** Signing in, signing up, signing out *)

Module AuthFacts.
Import JS Vocabulary Vocabulary2 AuthActions.

Lemma or_else_truthy (a b : JsVal) : truthy b = true -> truthy (or_else a b) = true.
Proof. unfold or_else. destruct (truthy a) eqn:Ha; auto. Qed.

(** X1.  [signUp] never signs in: however the exchange ends, the current
    user and the session storage are what they were, loading has ended and
    exactly one request went to the signup endpoint; the promise resolves
    exactly when the answer has a success status and a body that parses. *)
Theorem signUp_never_signs_in
    (ah : AuthHost) (email password : string) (net : Request -> FetchOutcome) (w : World) :
  user (auth (fst (signUp ah email password net w))) = user (auth w)
  /\ sessionStorage (fst (signUp ah email password net w)) = sessionStorage w
  /\ isLoading (auth (fst (signUp ah email password net w))) = false
  /\ requests (fst (signUp ah email password net w))
     = requests w ++ [signupRequest ah email password]
  /\ (snd (signUp ah email password net w) = Normal tt
      <-> exists data, net (signupRequest ah email password) = Response true (Normal data)).
Proof.
  unfold signUp.
  destruct (net (signupRequest ah email password)) as [e|[] [data|e]]; cbn;
    repeat (split; [reflexivity|]); split;
    try discriminate; try (intros [d Hd]; discriminate Hd); eauto.
Qed.

(** X2.  A sign-in that does not succeed (network failure, non-success
    status, unreadable or [null] body) rejects and leaves the current user
    and the session storage as they were, with loading ended. *)
Theorem signIn_failure_keeps_identity
    (ah : AuthHost) (email password : string) (net : Request -> FetchOutcome) (w : World) :
  succeeded (net (loginRequest ah email password)) = false ->
  user (auth (fst (signIn ah email password net w))) = user (auth w)
  /\ sessionStorage (fst (signIn ah email password net w)) = sessionStorage w
  /\ isLoading (auth (fst (signIn ah email password net w))) = false
  /\ exists e, snd (signIn ah email password net w) = Throw e.
Proof.
  unfold signIn, succeeded.
  destruct (net (loginRequest ah email password)) as [e|[] [data|e]]; cbn;
    try (intros _; repeat (split; [reflexivity|]); eauto; fail).
  destruct data; try discriminate; intros _; cbn;
    repeat (split; [reflexivity|]); eauto.
Qed.

Lemma signIn_failure_keeps_identity_witness :
  user (auth (fst (signIn exampleAuthHost "a@x.com" "pw"
                     (fun _ => Response false (Throw (ThrownError "no body")))
                     signedOutWorld))) = JNull
  /\ sessionStorage (fst (signIn exampleAuthHost "a@x.com" "pw"
                            (fun _ => Response false (Throw (ThrownError "no body")))
                            signedOutWorld)) = ∅.
Proof.
  pose proof (signIn_failure_keeps_identity exampleAuthHost "a@x.com" "pw"
                (fun _ => Response false (Throw (ThrownError "no body")))
                signedOutWorld eq_refl) as (H1 & H2 & _).
  exact (conj H1 H2).
Defined.

(** The message a rejected sign-in carries: a string [detail] as it is,
    else a string [message], else "Login failed". *)
Lemma rejection_message (fallback : string) (fields : list (string * JsVal)) :
  (forall d, lookupField "detail" fields = JStr d -> d <> "" ->
     rejection fallback (Normal (JObj fields)) = ThrownError d)
  /\ (forall m, truthy (lookupField "detail" fields) = false ->
        lookupField "message" fields = JStr m -> m <> "" ->
        rejection fallback (Normal (JObj fields)) = ThrownError m)
  /\ (truthy (lookupField "detail" fields) = false ->
      truthy (lookupField "message" fields) = false ->
      rejection fallback (Normal (JObj fields)) = ThrownError fallback)
  /\ (forall e, rejection fallback (Throw e) = ThrownError fallback).
Proof.
  unfold rejection. cbn [getProp]. repeat split.
  - intros d -> Hd. destruct d; [congruence|reflexivity].
  - intros m -> Hm Hne. cbn. unfold or_else. rewrite Hm.
    destruct m; [congruence|reflexivity].
  - intros -> Hm. unfold or_else. now rewrite Hm.
Qed.

(** X3.  After a successful sign-in the current user is the [user] of the
    answer, or [{email}] with the submitted e-mail when the answer has
    none; the provider is authenticated; and on a host whose JSON text of
    that user reads back as it, a provider mounted on the resulting session
    storage starts with the same user. *)
Theorem signIn_then_reload
    (ah : AuthHost) (email password : string) (net : Request -> FetchOutcome)
    (w : World) (data : JsVal) :
  net (loginRequest ah email password) = Response true (Normal data) ->
  data <> JNull -> data <> JUndefined ->
  roundTrips ah (or_else (getPropOpt data "user") (JObj [("email", JStr email)])) ->
  let userData := or_else (getPropOpt data "user") (JObj [("email", JStr email)]) in
  let w' := fst (signIn ah email password net w) in
  snd (signIn ah email password net w) = Normal tt
  /\ user (auth w') = userData
  /\ isAuthenticated w' = true
  /\ (truthy (getPropOpt data "user") = false ->
      userData = JObj [("email", JStr email)])
  /\ AuthContext.initialUser (host ah) (sessionStorage w') = Normal userData
  /\ mount (host ah) (sessionStorage w')
     = Normal {| auth := {| user := userData; isLoading := false |};
                 sessionStorage := sessionStorage w'; requests := [] |}.
Proof.
  intros Hnet Hn Hu [Hne Hrt] userData w'. subst w' userData.
  unfold signIn. rewrite Hnet.
  assert (Hget : getProp data "user" = Some (getPropOpt data "user"))
    by (destruct data; try reflexivity; congruence).
  rewrite Hget. cbn [fst snd].
  set (userData := or_else (getPropOpt data "user") (JObj [("email", JStr email)])) in *.
  assert (Hinit : AuthContext.initialUser (host ah)
                    (<["auth_user" := JSON_stringify ah userData]> (sessionStorage w))
                  = Normal userData).
  { unfold AuthContext.initialUser. rewrite lookup_insert_eq.
    destruct (JSON_stringify ah userData) eqn:Hs; [congruence|]. exact Hrt. }
  split; [reflexivity|]. split; [reflexivity|].
  split; [apply or_else_truthy; reflexivity|].
  split; [intros Hf; unfold userData, or_else; now rewrite Hf|].
  split; [exact Hinit|].
  unfold mount. cbn. now rewrite Hinit.
Qed.

Lemma signIn_then_reload_witness :
  AuthContext.initialUser (host exampleAuthHost)
    (sessionStorage
       (fst (signIn exampleAuthHost "a@x.com" "pw"
               (fun _ => Response true (Normal (JObj []))) signedOutWorld)))
  = Normal (JObj [("email", JStr "a@x.com")]).
Proof.
  assert (Hrt : roundTrips exampleAuthHost
                  (or_else (getPropOpt (JObj []) "user")
                     (JObj [("email", JStr "a@x.com")]))).
  { split; [discriminate | reflexivity]. }
  exact (proj1 (proj2 (proj2 (proj2 (proj2
           (signIn_then_reload exampleAuthHost "a@x.com" "pw"
              (fun _ => Response true (Normal (JObj []))) signedOutWorld (JObj [])
              eq_refl ltac:(discriminate) ltac:(discriminate) Hrt)))))).
Defined.

(** X4.  Signing out, from the sidebar or otherwise, clears the current
    user and removes the session entry, so that a provider mounted
    afterwards starts signed out, the onboarding page works on the e-mail
    [default] and the dashboard reads the dialect stored under
    [selected_db_default]; the sidebar's action then navigates to
    [/signin]. *)
Theorem signOut_falls_back_to_default
    (h : Host) (w : World) (localStorage : gmap string string) :
  user (auth (signOut w)) = JNull
  /\ isAuthenticated (signOut w) = false
  /\ sessionStorage (signOut w) !! "auth_user" = None
  /\ AuthContext.initialUser h (sessionStorage (signOut w)) = Normal JNull
  /\ OnboardingPage.userEmail h (sessionStorage (signOut w)) (user (auth (signOut w)))
     = JStr "default"
  /\ Dashboard008.initialDatabaseType h (sessionStorage (signOut w)) localStorage
     = getItemOr localStorage "selected_db_default" "mysql"
  /\ SidebarLayout.handleSignOut w = (signOut w, "/signin").
Proof.
  assert (Hs : sessionStorage (signOut w) !! "auth_user" = None)
    by apply lookup_delete_eq.
  repeat split; try exact Hs.
  - unfold AuthContext.initialUser. now rewrite Hs.
  - unfold OnboardingPage.userEmail. now rewrite Hs.
  - unfold Dashboard008.initialDatabaseType. now rewrite Hs.
Qed.

End AuthFacts.

(** ** How a run ends *)

Module RunOutcome.
Import JS Vocabulary Vocabulary2 JSFacts Variants DashboardShared.

Lemma caughtMessage_nonempty (h : Host) (e : Thrown) : caughtMessage h e <> "".
Proof.
  unfold caughtMessage. destruct (message h e) eqn:Hm; simpl; discriminate.
Qed.

Ltac finish_run :=
  cbn; repeat (split; [reflexivity|]);
  first [ left; eexists; split; reflexivity
        | right; split;
          [reflexivity | first [apply caughtMessage_nonempty | discriminate]] ].

(** X5.  In every variant of the dashboard a run with a non-blank input
    issues exactly one request, leaves the input text and the operation as
    they were, ends with loading off, and ends either with an output and an
    empty error, or with no output and a non-empty error message. *)
Theorem run_ends_with_output_or_error
    (v : Variant) (h : Host) (net : Request -> FetchOutcome)
    (st : PageState (pageOf v)) :
  allWhiteSpace (pageInput (pageOf v) st) = false ->
  let st' := fst (pageHandleRunQuery (pageOf v) h net st) in
  length (snd (pageHandleRunQuery (pageOf v) h net st)) = 1%nat
  /\ pageInput (pageOf v) st' = pageInput (pageOf v) st
  /\ pageOperation (pageOf v) st' = pageOperation (pageOf v) st
  /\ pageIsLoading v st' = false
  /\ ((exists o, pageOutput (pageOf v) st' = Some o /\ pageError (pageOf v) st' = "")
      \/ (pageOutput (pageOf v) st' = None /\ pageError (pageOf v) st' <> "")).
Proof.
  intros Hin st'. subst st'. destruct v;
    cbn [pageOf PageState pageInput pageOutput pageError pageOperation
         pageHandleRunQuery pageIsLoading] in *.
  - unfold Dashboard.handleRunQuery, Dashboard.handleRunQuery_begin.
    rewrite inputIsBlank_iff, Hin. unfold Dashboard.handleRunQuery_resume.
    match goal with |- context [net ?req] => destruct (net req) as [e|[] [data|e]] end;
      try finish_run.
    unfold sqlResult.
    destruct (getProp data "sql"), (getProp data "explanation"); finish_run.
  - unfold Dashboard009.handleRunQuery, Dashboard009.handleRunQuery_begin.
    rewrite inputIsBlank_iff, Hin. unfold Dashboard009.handleRunQuery_resume.
    match goal with |- context [net ?req] => destruct (net req) as [e|[] [data|e]] end;
      try finish_run.
    unfold sqlResult, suggestResult.
    destruct (String.eqb (Dashboard009.operation st) "suggest");
      [destruct (getProp data "queries"), (getProp data "notes")
      |destruct (getProp data "sql"), (getProp data "explanation")]; finish_run.
  - unfold Dashboard008.handleRunQuery, Dashboard008.handleRunQuery_begin.
    rewrite inputIsBlank_iff, Hin. unfold Dashboard008.handleRunQuery_resume.
    match goal with |- context [net ?req] => destruct (net req) as [e|[] [data|e]] end;
      try finish_run.
    unfold sqlResult, suggestResult.
    destruct (String.eqb (Dashboard008.operation st) "suggest");
      [destruct (getProp data "queries"), (getProp data "notes")
      |destruct (getProp data "sql"), (getProp data "explanation")]; finish_run.
Qed.

Lemma run_ends_with_output_or_error_witness :
  Dashboard008.isLoading
    (fst (Dashboard008.handleRunQuery exampleHost
            (fun _ => NetworkFailure (ThrownError "Failed to fetch")) suggestRun)) = false
  /\ Dashboard008.input
       (fst (Dashboard008.handleRunQuery exampleHost
               (fun _ => NetworkFailure (ThrownError "Failed to fetch")) suggestRun))
     = "SELECT 1".
Proof.
  pose proof (run_ends_with_output_or_error Part008 exampleHost
                (fun _ => NetworkFailure (ThrownError "Failed to fetch")) suggestRun
                eq_refl) as (_ & H2 & _ & H4 & _).
  exact (conj H4 H2).
Defined.

(** The error a run ends with when the answer has a non-success status. *)
Lemma failed_run_error (v : Variant) (h : Host) (json : Completion JsVal)
    (st : PageState (pageOf v)) :
  allWhiteSpace (pageInput (pageOf v) st) = false ->
  pageError (pageOf v)
    (fst (pageHandleRunQuery (pageOf v) h (fun _ => Response false json) st))
  = caughtMessage h (failedResponse json).
Proof.
  intros Hin. destruct v;
    cbn [pageOf PageState pageInput pageError pageHandleRunQuery] in *.
  - unfold Dashboard.handleRunQuery, Dashboard.handleRunQuery_begin.
    now rewrite inputIsBlank_iff, Hin.
  - unfold Dashboard009.handleRunQuery, Dashboard009.handleRunQuery_begin.
    now rewrite inputIsBlank_iff, Hin.
  - unfold Dashboard008.handleRunQuery, Dashboard008.handleRunQuery_begin.
    now rewrite inputIsBlank_iff, Hin.
Qed.

(** X6.  When a run is answered with a non-success status and a body whose
    [detail] is an object (the structured form of the API's errors), every
    variant of the dashboard shows the text "[object Object]" as the error,
    whatever message the object carries. *)
Theorem structured_detail_shown_as_object
    (v : Variant) (h : Host) (st : PageState (pageOf v))
    (errorData detail : list (string * JsVal)) :
  allWhiteSpace (pageInput (pageOf v) st) = false ->
  lookupField "detail" errorData = JObj detail ->
  pageError (pageOf v)
    (fst (pageHandleRunQuery (pageOf v) h
            (fun _ => Response false (Normal (JObj errorData))) st))
  = "[object Object]".
Proof.
  intros Hin Hd. rewrite (failed_run_error v h _ st Hin).
  unfold failedResponse. cbn [getProp]. now rewrite Hd.
Qed.

Lemma structured_detail_shown_as_object_witness :
  Dashboard008.error
    (fst (Dashboard008.handleRunQuery exampleHost
            (fun _ => Response false (Normal mismatchBody)) suggestRun))
  = "[object Object]".
Proof.
  exact (structured_detail_shown_as_object Part008 exampleHost suggestRun
           [("detail", JObj mismatchDetail)] mismatchDetail eq_refl eq_refl).
Defined.

(** X7.  When a run is answered with a non-success status, every variant of
    the dashboard shows a non-empty string [detail] of the body as it is;
    without a truthy [detail], a non-empty string [message]; and with
    neither, or with a body that is not JSON, "Failed to process query". *)
Theorem failed_run_message
    (v : Variant) (h : Host) (st : PageState (pageOf v)) :
  allWhiteSpace (pageInput (pageOf v) st) = false ->
  let shown json :=
    pageError (pageOf v)
      (fst (pageHandleRunQuery (pageOf v) h (fun _ => Response false json) st)) in
  (forall fields d, lookupField "detail" fields = JStr d -> d <> "" ->
     shown (Normal (JObj fields)) = d)
  /\ (forall fields m, truthy (lookupField "detail" fields) = false ->
        lookupField "message" fields = JStr m -> m <> "" ->
        shown (Normal (JObj fields)) = m)
  /\ (forall fields, truthy (lookupField "detail" fields) = false ->
        truthy (lookupField "message" fields) = false ->
        shown (Normal (JObj fields)) = "Failed to process query")
  /\ (forall e, shown (Throw e) = "Failed to process query").
Proof.
  intros Hin shown. subst shown. cbv beta.
  repeat split; intros; rewrite (failed_run_error v h _ st Hin);
    unfold failedResponse; cbn [getProp].
  - rewrite H. destruct d; [congruence|reflexivity].
  - rewrite H. unfold or_else. rewrite H0. destruct m; [congruence|reflexivity].
  - rewrite H. unfold or_else. now rewrite H0.
  - reflexivity.
Qed.

Lemma failed_run_message_witness :
  Dashboard008.error
    (fst (Dashboard008.handleRunQuery exampleHost
            (fun _ => Response false (Normal (JObj [("detail", JStr "Quota exceeded")])))
            suggestRun))
  = "Quota exceeded".
Proof.
  exact (proj1 (failed_run_message Part008 exampleHost suggestRun eq_refl)
           [("detail", JStr "Quota exceeded")] "Quota exceeded" eq_refl
           ltac:(discriminate)).
Defined.

(** X8.  A run is not cancelled by a change of operation: in the part_008
    dashboard, when the [op] parameter changes while the request is out and
    the answer then arrives with success, the page has the new operation
    and an empty input, and its output is the answer normalised for the
    operation the run was started with. *)
Theorem late_answer_still_stored
    (h : Host) (st : Dashboard008.State) (o' : string) (data : JsVal) :
  allWhiteSpace (Dashboard008.input st) = false ->
  isEmpty o' = false ->
  data <> JNull -> data <> JUndefined ->
  let started := fst (Dashboard008.handleRunQuery_begin h st) in
  let switched := Dashboard008.searchParamsEffect (Some o') started in
  let st' := Dashboard008.handleRunQuery_resume h (Dashboard008.operation st)
               (Response true (Normal data)) switched in
  Dashboard008.output switched = None
  /\ Dashboard008.operation st' = o'
  /\ Dashboard008.input st' = ""
  /\ Dashboard008.isLoading st' = false
  /\ exists o,
       (if String.eqb (Dashboard008.operation st) "suggest"
        then suggestResult data else sqlResult data) = Normal o
       /\ Dashboard008.output st' = Some o.
Proof.
  intros Hin Ho Hn Hu started switched st'. subst st' switched started.
  unfold Dashboard008.handleRunQuery_begin. rewrite inputIsBlank_iff, Hin.
  cbn [fst Dashboard008.searchParamsEffect]. rewrite Ho.
  unfold Dashboard008.handleRunQuery_resume, suggestResult, sqlResult.
  assert (Hget : forall k, getProp data k = Some (getPropOpt data k))
    by (intros k; destruct data; try reflexivity; congruence).
  rewrite !Hget.
  destruct (String.eqb (Dashboard008.operation st) "suggest"); cbn;
    repeat (split; [reflexivity|]); eexists; split; reflexivity.
Qed.

Lemma late_answer_still_stored_witness :
  Dashboard008.output
    (Dashboard008.handleRunQuery_resume exampleHost "suggest"
       (Response true (Normal suggestAnswer))
       (Dashboard008.searchParamsEffect (Some "fix")
          (fst (Dashboard008.handleRunQuery_begin exampleHost suggestRun))))
  <> None.
Proof.
  destruct (late_answer_still_stored exampleHost suggestRun "fix" suggestAnswer
              eq_refl eq_refl ltac:(discriminate) ltac:(discriminate))
    as (_ & _ & _ & _ & o & _ & Ho).
  intros H. exact (eq_ind (Some o) (fun x => match x with Some _ => True | None => False end)
                     I None (eq_trans (eq_sym Ho) H)).
Defined.

End RunOutcome.

(** ** The suggestion-count field over time *)

Module SuggestionFieldFacts.
Import JS Vocabulary Vocabulary2 JSFacts SuggestionCount SuggestionField.

(** The text of a count in range is made of digits and reads back as the
    same count. *)
Lemma validated_text (n : Z) :
  (1 <= n <= 10)%Z ->
  Dashboard008.allDigits (Num_toString (Int n)) = true
  /\ isEmpty (Num_toString (Int n)) = false
  /\ parseInt (Num_toString (Int n)) (Some 10%Z) = Int n.
Proof.
  intros Hn.
  assert (H : (n = 1 \/ n = 2 \/ n = 3 \/ n = 4 \/ n = 5 \/ n = 6 \/ n = 7
               \/ n = 8 \/ n = 9 \/ n = 10)%Z) by lia.
  repeat (destruct H as [->|H]; [repeat split; reflexivity|]).
  subst. repeat split; reflexivity.
Qed.

Lemma validated_text_clamp (s : string) :
  clamp (Num_toString (Int (clamp s))) = clamp s.
Proof.
  destruct (validated_text (clamp s) (clamp_range s)) as (_ & He & Hp).
  unfold clamp at 1. rewrite Hp, He. pose proof (clamp_range s). lia.
Qed.

Lemma validated_not_invalid (st : Dashboard008.State) (s : string) :
  fieldInvariant
    (Dashboard008.setNumSuggestionsWasValidated true
       (Dashboard008.setNumSuggestionsInput
          (Num_toString (Dashboard008.getValidatedSuggestions s)) st)).
Proof.
  rewrite getValidatedSuggestions_clamp.
  destruct (validated_text (clamp s) (clamp_range s)) as (Hd & He & Hp).
  split; [exact Hd|]. intros _.
  unfold isCurrentlyInvalid. cbn [Dashboard008.numSuggestionsInput
    Dashboard008.setNumSuggestionsWasValidated Dashboard008.setNumSuggestionsInput].
  rewrite He, Hp. pose proof (clamp_range s) as Hr. cbn.
  apply orb_false_iff. split; apply Z.ltb_ge; lia.
Qed.

Lemma fieldInvariant_step (h : Host) (st st' : Dashboard008.State) :
  step h st st' -> fieldInvariant st -> fieldInvariant st'.
Proof.
  intros Hstep [Hd Hv]. destruct Hstep as [st v|st v|st|st p|st|st op outcome].
  - split; [exact Hd | exact Hv].
  - unfold Dashboard008.numSuggestionsChange.
    destruct (isEmpty v || Dashboard008.allDigits v) eqn:Hok.
    + split; [|discriminate]. cbn.
      apply orb_true_iff in Hok as [He|Hok]; [|exact Hok].
      apply isEmpty_true_iff in He. now subst.
    + split; [exact Hd | discriminate].
  - apply validated_not_invalid.
  - destruct p as [o|]; cbn; [|split; assumption].
    destruct (isEmpty o); split; assumption.
  - unfold Dashboard008.handleRunQuery_begin.
    destruct (DashboardShared.inputIsBlank (Dashboard008.input st)); cbn [fst].
    + split; [exact Hd | exact Hv].
    + apply (validated_not_invalid
               (Dashboard008.setOutput None
                  (Dashboard008.setIsLoading true (Dashboard008.setError "" st)))).
  - unfold Dashboard008.handleRunQuery_resume.
    destruct outcome as [e|[] [data|e]]; cbn; try (split; assumption).
    destruct (if String.eqb op "suggest" then _ else _); split; assumption.
Qed.

(** X9.  In the part_008 dashboard, whatever the user types, leaves,
    switches or runs, the suggestion-count field holds digits only and is
    never shown in its error style: the style needs the field validated and
    invalid at once, and every validation leaves a count in [1, 10]. *)
Theorem count_field_never_in_error
    (h : Host) (db : string) (st : Dashboard008.State) :
  rtc (step h) (Dashboard008.initialState db) st ->
  showVisualError st = false
  /\ Dashboard008.allDigits (Dashboard008.numSuggestionsInput st) = true.
Proof.
  intros Hreach.
  assert (Hinv : fieldInvariant st).
  { assert (H0 : fieldInvariant (Dashboard008.initialState db))
      by (split; [reflexivity | discriminate]).
    revert H0. induction Hreach as [|x y z Hs _ IH]; [tauto|].
    intros Hx. apply IH. exact (fieldInvariant_step h x y Hs Hx). }
  destruct Hinv as [Hd Hv]. split; [|exact Hd].
  unfold showVisualError.
  destruct (Dashboard008.numSuggestionsWasValidated st); [|reflexivity].
  now rewrite Hv.
Qed.

Lemma count_field_never_in_error_witness :
  showVisualError
    (Dashboard008.handleNumSuggestionsBlur
       (Dashboard008.numSuggestionsChange "0" (Dashboard008.initialState "mysql")))
  = false.
Proof.
  assert (Hreach : rtc (step exampleHost) (Dashboard008.initialState "mysql")
                     (Dashboard008.handleNumSuggestionsBlur
                        (Dashboard008.numSuggestionsChange "0"
                           (Dashboard008.initialState "mysql")))).
  { eapply rtc_l; [apply (stepCount _ _ "0")|].
    eapply rtc_l; [apply stepBlur|]. apply rtc_refl. }
  exact (proj1 (count_field_never_in_error exampleHost "mysql" _ Hreach)).
Defined.

(** X10.  Leaving the count field is idempotent, and what it shows after
    being left is what a [suggest] run sends: the run posts as
    [max_suggestions] the number whose text is in the field, and leaves
    that text as it is. *)
Theorem blur_shows_what_is_sent (h : Host) (st : Dashboard008.State) :
  Dashboard008.operation st = "suggest" ->
  allWhiteSpace (Dashboard008.input st) = false ->
  let left := Dashboard008.handleNumSuggestionsBlur st in
  Dashboard008.handleNumSuggestionsBlur left = left
  /\ exists req n,
       Dashboard008.handleRunQuery_begin h left
         = (Dashboard008.setOutput None
              (Dashboard008.setIsLoading true (Dashboard008.setError "" left)),
            Some req)
       /\ lookupField "max_suggestions" (body req) = JNum (Int n)
       /\ Num_toString (Int n) = Dashboard008.numSuggestionsInput left
       /\ (1 <= n <= 10)%Z.
Proof.
  intros Hop Hin left. subst left.
  unfold Dashboard008.handleNumSuggestionsBlur, Dashboard008.handleRunQuery_begin.
  cbn [Dashboard008.numSuggestionsInput Dashboard008.input Dashboard008.operation
       Dashboard008.databaseType
       Dashboard008.setNumSuggestionsWasValidated Dashboard008.setNumSuggestionsInput].
  rewrite inputIsBlank_iff, Hin, Hop.
  rewrite !getValidatedSuggestions_clamp, validated_text_clamp.
  split; [reflexivity|].
  eexists. exists (clamp (Dashboard008.numSuggestionsInput st)).
  split; [reflexivity|]. split; [reflexivity|]. split; [reflexivity|].
  apply clamp_range.
Qed.

Lemma blur_shows_what_is_sent_witness :
  Dashboard008.handleNumSuggestionsBlur (Dashboard008.handleNumSuggestionsBlur suggestRun)
  = Dashboard008.handleNumSuggestionsBlur suggestRun.
Proof.
  exact (proj1 (blur_shows_what_is_sent exampleHost suggestRun eq_refl eq_refl)).
Defined.

(** The number field of src/unnamed/part_009 never holds NaN or zero. *)
Lemma part009_count_nonzero (value : string) (st : Dashboard009.State) :
  exists n, Dashboard009.numSuggestions (Dashboard009.numSuggestionsChange value st) = Int n
            /\ n <> 0%Z.
Proof.
  unfold Dashboard009.numSuggestionsChange. cbn.
  destruct (parseInt value None) as [|z]; cbn; [exists 5%Z; split; [reflexivity|lia]|].
  destruct (z =? 0)%Z eqn:Hz; cbn.
  - exists 5%Z. split; [reflexivity|lia].
  - exists z. split; [reflexivity|]. now apply Z.eqb_neq.
Qed.

End SuggestionFieldFacts.

(** ** What QueryOutput shows *)

Module QueryOutputFacts.
Import JS Vocabulary Vocabulary2 JSFacts QueryOutput.

(** X11.  For operation [explain] the component never shows the SQL card
    and never the suggestion cards, whatever [sql] and [suggestions] it is
    given: it shows the spinner, the explain placeholder, or the
    explanation without its header. *)
Theorem explain_never_shows_sql (p : Props) :
  operationIs p "explain" = true ->
  render p = Spinner
  \/ render p = Placeholder "MessageSquare" "Your explanation will appear here"
  \/ (exists e, explanation p = Some e /\ render p = Panels None (Some (false, e)))
  \/ (hasExplanation p = false /\ render p = Panels None None).
Proof.
  intros Hop. unfold render, hasExplanation.
  assert (Hs : operationIs p "suggest" = false).
  { unfold operationIs in *. destruct (operation p) as [o|]; [|reflexivity].
    apply String.eqb_eq in Hop. now subst. }
  rewrite Hop, Hs.
  destruct (isLoading p); [now left|].
  destruct (nonEmpty (sql p)), (explanation p) as [e|];
    [destruct (nonEmpty e) eqn:Hne| |destruct (nonEmpty e) eqn:Hne|];
    destruct (hasSuggestions p); cbn [negb andb]; rewrite ?Hne;
    first [ right; left; reflexivity
          | right; right; left; exists e; split; reflexivity
          | right; right; right; split; reflexivity ].
Qed.

Lemma explain_never_shows_sql_witness :
  render {| sql := "SELECT 1"; explanation := Some "Reads one row";
            suggestions := None; isLoading := false; operation := Some "explain" |}
  = Panels None (Some (false, "Reads one row")).
Proof.
  destruct (explain_never_shows_sql
              {| sql := "SELECT 1"; explanation := Some "Reads one row";
                 suggestions := None; isLoading := false;
                 operation := Some "explain" |} eq_refl)
    as [H|[H|[(e & He & H)|[He H]]]]; try discriminate H; try discriminate He.
  injection He as <-. exact H.
Defined.

Lemma cardsFrom_numbers (k : nat) (l : list Suggestion) :
  map (fun c => fst (fst c)) (cardsFrom k l) = seq (S k) (length l).
Proof.
  revert k. induction l as [|s l IH]; intros k; [reflexivity|].
  cbn [cardsFrom map length seq fst]. now rewrite IH.
Qed.

Lemma cardsFrom_content (k : nat) (l : list Suggestion) :
  map (fun c => (snd (fst c), snd c)) (cardsFrom k l)
  = map (fun s => (sugTitle s, sugSql s)) l.
Proof.
  revert k. induction l as [|s l IH]; intros k; [reflexivity|].
  cbn [cardsFrom map fst snd]. now rewrite IH.
Qed.

(** X12.  For operation [suggest] with a non-empty list of suggestions and
    loading off, the component shows exactly one card per suggestion, in
    order, numbered 1, 2, ..., each with the title and SQL of its
    suggestion, and nothing else: the explanation it is given is not
    shown. *)
Theorem suggestions_shown_as_numbered_cards (p : Props) (l : list Suggestion) :
  isLoading p = false ->
  operationIs p "suggest" = true ->
  suggestions p = Some l ->
  l <> [] ->
  exists cards,
    render p = SuggestionCards cards
    /\ map (fun c => fst (fst c)) cards = seq 1 (length l)
    /\ map (fun c => (snd (fst c), snd c)) cards
       = map (fun s => (sugTitle s, sugSql s)) l.
Proof.
  intros Hl Hop Hs Hne. exists (cardsFrom 0 l).
  split; [|split; [apply cardsFrom_numbers | apply cardsFrom_content]].
  unfold render. rewrite Hl, Hop.
  assert (Hh : hasSuggestions p = true)
    by (unfold hasSuggestions; rewrite Hs; destruct l; [congruence|reflexivity]).
  rewrite Hh, Hs. now rewrite !andb_false_r.
Qed.

Lemma suggestions_shown_as_numbered_cards_witness :
  exists cards,
    render {| sql := ""; explanation := Some "Two ideas";
              suggestions := Some [ {| sugSql := "SELECT 2"; sugTitle := "Next" |};
                                    {| sugSql := "SELECT 3"; sugTitle := "Then" |} ];
              isLoading := false; operation := Some "suggest" |}
    = SuggestionCards cards
    /\ map (fun c => fst (fst c)) cards = [1%nat; 2%nat]
    /\ map (fun c => (snd (fst c), snd c)) cards
       = [("Next", "SELECT 2"); ("Then", "SELECT 3")].
Proof.
  exact (suggestions_shown_as_numbered_cards
           {| sql := ""; explanation := Some "Two ideas";
              suggestions := Some [ {| sugSql := "SELECT 2"; sugTitle := "Next" |};
                                    {| sugSql := "SELECT 3"; sugTitle := "Then" |} ];
              isLoading := false; operation := Some "suggest" |}
           _ eq_refl eq_refl eq_refl ltac:(discriminate)).
Defined.

Lemma or_else_string (s : string) : or_else (JStr s) (JStr "") = JStr s.
Proof. now destruct s. Qed.

(** X13.  From answer to screen, part_008 dashboard with part_002
    renderer: a run of an operation other than [suggest] that is answered
    with success and a body with a non-empty string [sql] and a string
    [explanation] ends on the panels view, with the SQL card holding that
    SQL unless the operation is [explain], and the explanation card (with
    its header unless the operation is [explain]) unless the explanation is
    empty. *)
Theorem sql_answer_on_screen
    (h : Host) (st : Dashboard008.State) (fields : list (string * JsVal))
    (s e : string) :
  allWhiteSpace (Dashboard008.input st) = false ->
  String.eqb (Dashboard008.operation st) "suggest" = false ->
  lookupField "sql" fields = JStr s ->
  lookupField "explanation" fields = JStr e ->
  s <> "" ->
  let st' := fst (Dashboard008.handleRunQuery h
                    (fun _ => Response true (Normal (JObj fields))) st) in
  let isExplain := String.eqb (Dashboard008.operation st) "explain" in
  exists p,
    propsOf st' = Some p
    /\ render p
       = Panels (if isExplain then None else Some s)
                (if nonEmpty e then Some (negb isExplain, e) else None).
Proof.
  intros Hin Hop Hs He Hne st' isExplain. subst st' isExplain.
  unfold Dashboard008.handleRunQuery, Dashboard008.handleRunQuery_begin.
  rewrite inputIsBlank_iff, Hin. cbn [fst].
  unfold Dashboard008.handleRunQuery_resume. rewrite Hop.
  unfold DashboardShared.sqlResult. cbn [getProp]. rewrite Hs, He, !or_else_string.
  destruct s as [|c s]; [congruence|].
  unfold propsOf. cbn. eexists. split; [reflexivity|].
  unfold render, operationIs. cbn. rewrite Hop.
  destruct (String.eqb (Dashboard008.operation st) "explain"); cbn;
    destruct e; reflexivity.
Qed.

Lemma sql_answer_on_screen_witness :
  exists p,
    propsOf (fst (Dashboard008.handleRunQuery exampleHost
                    (fun _ => Response true (Normal generateAnswer)) generateRun))
    = Some p
    /\ render p = Panels (Some "SELECT * FROM users") (Some (true, "All users")).
Proof.
  exact (sql_answer_on_screen exampleHost generateRun
           [("sql", JStr "SELECT * FROM users"); ("explanation", JStr "All users")]
           "SELECT * FROM users" "All users"
           eq_refl eq_refl eq_refl eq_refl ltac:(discriminate)).
Defined.

(** X14.  From answer to screen for [suggest]: a run answered with
    success and a body whose [queries] is a non-empty array of objects with
    string [sql] and [title] ends on one numbered card per query, and the
    [notes] of the answer, though stored as the explanation, are not
    shown. *)
Theorem suggest_answer_on_screen
    (h : Host) (st : Dashboard008.State) (fields : list (string * JsVal))
    (items : list JsVal) (ss : list Suggestion) (notes : string) :
  allWhiteSpace (Dashboard008.input st) = false ->
  Dashboard008.operation st = "suggest" ->
  lookupField "queries" fields = JArr items ->
  suggestionsOf items = Some ss ->
  ss <> [] ->
  lookupField "notes" fields = JStr notes ->
  let st' := fst (Dashboard008.handleRunQuery h
                    (fun _ => Response true (Normal (JObj fields))) st) in
  exists p,
    propsOf st' = Some p
    /\ explanation p = Some notes
    /\ render p = SuggestionCards (cardsFrom 0 ss)
    /\ length (cardsFrom 0 ss) = length items.
Proof.
  intros Hin Hop Hq Hss Hne Hn st'. subst st'.
  unfold Dashboard008.handleRunQuery, Dashboard008.handleRunQuery_begin.
  rewrite inputIsBlank_iff, Hin. cbn [fst].
  unfold Dashboard008.handleRunQuery_resume. rewrite Hop. cbn [String.eqb Ascii.eqb Bool.eqb].
  unfold DashboardShared.suggestResult. cbn [getProp]. rewrite Hq, Hn, or_else_string.
  unfold propsOf. cbn. rewrite Hss. eexists. split; [reflexivity|].
  split; [reflexivity|]. split.
  - unfold render, operationIs, hasSuggestions, hasExplanation. cbn.
    destruct ss as [|x ss]; [congruence|]. cbn.
    now rewrite Hop, andb_false_r.
  - assert (Hlen : forall k l, length (cardsFrom k l) = length l).
    { intros k l. revert k. induction l; intros; cbn; [reflexivity|]. now rewrite IHl. }
    rewrite Hlen. clear -Hss. revert ss Hss.
    induction items as [|v items IH]; intros ss Hss; cbn in Hss.
    + now injection Hss as <-.
    + destruct (suggestionOf v); [|discriminate].
      destruct (suggestionsOf items) as [ss'|]; [|discriminate].
      injection Hss as <-. cbn. f_equal. now apply IH.
Qed.

Lemma suggest_answer_on_screen_witness :
  exists p,
    propsOf (fst (Dashboard008.handleRunQuery exampleHost
                    (fun _ => Response true (Normal suggestAnswerWithNotes)) suggestRun))
    = Some p
    /\ render p = SuggestionCards [(1%nat, "Next", "SELECT 2")].
Proof.
  destruct (suggest_answer_on_screen exampleHost suggestRun
              [("queries", JArr [JObj [("sql", JStr "SELECT 2"); ("title", JStr "Next")]]);
               ("notes", JStr "One idea")]
              [JObj [("sql", JStr "SELECT 2"); ("title", JStr "Next")]]
              [{| sugSql := "SELECT 2"; sugTitle := "Next" |}] "One idea"
              eq_refl eq_refl eq_refl eq_refl ltac:(discriminate) eq_refl)
    as (p & Hp & _ & Hr & _).
  exists p. exact (conj Hp Hr).
Defined.

End QueryOutputFacts.

(** ** Saving the workspace *)

Module SaveFacts.
Import JS Vocabulary Vocabulary2 JSFacts OnboardingPage Settings.

Lemma nonblank_nonempty (s : string) : allWhiteSpace s = false -> isEmpty s = false.
Proof. destruct s; [discriminate|reflexivity]. Qed.

Lemma nonblank_not_trimmed_away (s : string) :
  allWhiteSpace s = false -> isEmpty (trim s) = false.
Proof.
  intros H. pose proof (inputIsBlank_iff s) as Hb.
  unfold DashboardShared.inputIsBlank in Hb. congruence.
Qed.

Lemma new_events (l new : list Event) : skipn (length l) (l ++ new) = new.
Proof. now rewrite skipn_app, skipn_all, Nat.sub_diag. Qed.

(** Reading back what a successful save stored. *)
Lemma initialState_savedStorage (userEmail : JsVal) (sch db : string)
    (storage : gmap string string) :
  isEmpty sch = false -> db <> "" ->
  initialState (savedStorage userEmail sch db storage) userEmail
  = {| database := db; schema := sch; isLoading := false; onboardingCompleted := true |}.
Proof.
  intros Hs Hd. unfold initialState, savedStorage, readDatabase, readSchema,
    readCompleted, getItemOr.
  rewrite lookup_insert_eq.
  rewrite (lookup_insert_ne _ (lastSchemaKey userEmail) (selectedDbKey userEmail))
    by (apply not_eq_sym, selectedDb_lastSchema).
  rewrite lookup_insert_eq.
  rewrite (lookup_insert_ne _ (lastSchemaKey userEmail) (onboardingCompletedKey userEmail))
    by apply lastSchema_onboardingCompleted.
  rewrite (lookup_insert_ne _ (selectedDbKey userEmail) (onboardingCompletedKey userEmail))
    by apply selectedDb_onboardingCompleted.
  rewrite lookup_insert_eq, Hs.
  destruct db; [congruence|reflexivity].
Qed.

(** X15.  Round trip of the settings: after [handleComplete] of
    src/unnamed/part_006 on a non-blank schema is answered with success, a
    page mounted again for the same e-mail starts with the same dialect and
    schema and as completed, and its start-up effect uploads that schema
    and dialect again; the page that saved is completed, has loading off,
    shows no error toast, and navigates to the dashboard exactly when it
    was not completed before. *)
Theorem save_then_reload
    (h : Host) (userEmail : JsVal) (net : Request -> FetchOutcome) (w : World)
    (data : JsVal) :
  allWhiteSpace (schema (page w)) = false ->
  database (page w) <> "" ->
  net (uploadRequest h (schema (page w)) (database (page w)))
    = Response true (Normal data) ->
  data <> JNull -> data <> JUndefined ->
  let w' := handleComplete h userEmail net w in
  let added := skipn (length (events w)) (events w') in
  initialState (localStorage w') userEmail
    = {| database := database (page w); schema := schema (page w);
         isLoading := false; onboardingCompleted := true |}
  /\ events (userEmailEffect h userEmail (mounted (localStorage w') userEmail))
     = [Fetched (uploadRequest h (schema (page w)) (database (page w)))]
  /\ onboardingCompleted (page w') = true
  /\ isLoading (page w') = false
  /\ List.filter isErrorToast added = []
  /\ List.filter isNavigation added
     = if onboardingCompleted (page w) then [] else [Navigated "/dashboard"].
Proof.
  intros Hs Hd Hnet Hn Hu w' added. subst added w'.
  pose proof (nonblank_nonempty _ Hs) as Hne.
  assert (Hst : localStorage (handleComplete h userEmail net w)
                = savedStorage userEmail (schema (page w)) (database (page w))
                    (localStorage w)
                /\ onboardingCompleted (page (handleComplete h userEmail net w)) = true
                /\ isLoading (page (handleComplete h userEmail net w)) = false
                /\ List.filter isErrorToast
                     (skipn (length (events w)) (events (handleComplete h userEmail net w)))
                   = []
                /\ List.filter isNavigation
                     (skipn (length (events w)) (events (handleComplete h userEmail net w)))
                   = if onboardingCompleted (page w) then [] else [Navigated "/dashboard"]).
  { unfold handleComplete. rewrite (nonblank_not_trimmed_away _ Hs), Hnet.
    unfold handleComplete_resume, uploadAccepted.
    assert (Hget : getProp data "warning" = Some (getPropOpt data "warning"))
      by (destruct data; try reflexivity; congruence).
    rewrite Hget.
    destruct (truthy (getPropOpt data "warning")), (onboardingCompleted (page w));
      cbn; rewrite <- ?app_assoc; cbn [app]; rewrite new_events;
      repeat split; reflexivity. }
  destruct Hst as (Hst & Hc & Hl & He & Hnav). rewrite Hst.
  pose proof (initialState_savedStorage userEmail _ _ (localStorage w) Hne Hd) as Hinit.
  split; [exact Hinit|].
  split.
  - unfold userEmailEffect, mounted. cbn [localStorage page events].
    assert (Hr : readSchema (savedStorage userEmail (schema (page w)) (database (page w))
                               (localStorage w)) userEmail = schema (page w)
                 /\ readDatabase (savedStorage userEmail (schema (page w))
                                    (database (page w)) (localStorage w)) userEmail
                    = database (page w)
                 /\ readCompleted (savedStorage userEmail (schema (page w))
                                     (database (page w)) (localStorage w)) userEmail
                    = true).
    { unfold initialState in Hinit. injection Hinit as H1 H2 H3. auto. }
    destruct Hr as (-> & -> & ->). rewrite Hne. reflexivity.
  - auto.
Qed.

Lemma save_then_reload_witness :
  initialState
    (localStorage (handleComplete exampleHost (JStr "a@x.com")
                     (fun _ => Response true (Normal (JObj []))) typedSqliteWorld))
    (JStr "a@x.com")
  = {| database := "sqlite"; schema := "CREATE TABLE t (id INT);";
       isLoading := false; onboardingCompleted := true |}.
Proof.
  exact (proj1 (save_then_reload exampleHost (JStr "a@x.com")
                  (fun _ => Response true (Normal (JObj []))) typedSqliteWorld (JObj [])
                  eq_refl ltac:(discriminate) eq_refl
                  ltac:(discriminate) ltac:(discriminate))).
Defined.

(** X16.  Whatever makes an upload fail (network failure, non-success
    status with any body, unreadable or [null] body), [handleComplete]
    shows exactly one error toast after its request, writes nothing to
    local storage, does not navigate, keeps the typed schema, the dialect
    and the completed state, and ends with loading off. *)
Theorem failed_upload_keeps_form
    (h : Host) (userEmail : JsVal) (net : Request -> FetchOutcome) (w : World) :
  allWhiteSpace (schema (page w)) = false ->
  succeeded (net (uploadRequest h (schema (page w)) (database (page w)))) = false ->
  let w' := handleComplete h userEmail net w in
  (exists title description duration,
     events w'
     = events w ++ [ Fetched (uploadRequest h (schema (page w)) (database (page w)));
                     ToastError title description duration ])
  /\ localStorage w' = localStorage w
  /\ schema (page w') = schema (page w)
  /\ database (page w') = database (page w)
  /\ onboardingCompleted (page w') = onboardingCompleted (page w)
  /\ isLoading (page w') = false.
Proof.
  intros Hs Hfail w'. subst w'.
  unfold handleComplete. rewrite (nonblank_not_trimmed_away _ Hs).
  unfold handleComplete_resume.
  destruct (net _) as [e|[] [data|e]]; cbn in Hfail.
  - cbn. rewrite <- app_assoc. repeat split; eauto.
  - unfold uploadAccepted.
    destruct data; try discriminate; cbn; rewrite <- app_assoc; repeat split; eauto.
  - cbn. rewrite <- app_assoc. repeat split; eauto.
  - unfold uploadRejected.
    destruct (getProp data "detail") as [detail|];
      [|cbn; rewrite <- app_assoc; repeat split; eauto].
    destruct (truthy detail && typeofObject detail);
      [|cbn; rewrite <- app_assoc; repeat split; eauto].
    destruct (strictEqStr _ "schema_dialect_mismatch");
      [cbn; rewrite <- app_assoc; repeat split; eauto|].
    destruct (strictEqStr _ "schema_parse_failed");
      [cbn; rewrite <- app_assoc; repeat split; eauto|].
    destruct (truthy (getPropOpt detail "message"));
      cbn; rewrite <- app_assoc; repeat split; eauto.
  - cbn. rewrite <- app_assoc. repeat split; eauto.
Qed.

Lemma failed_upload_keeps_form_witness :
  localStorage (handleComplete exampleHost (JStr "a@x.com")
                  (fun _ => NetworkFailure (ThrownError "Failed to fetch"))
                  typedSqliteWorld) = ∅
  /\ schema (page (handleComplete exampleHost (JStr "a@x.com")
                     (fun _ => NetworkFailure (ThrownError "Failed to fetch"))
                     typedSqliteWorld))
     = "CREATE TABLE t (id INT);".
Proof.
  pose proof (failed_upload_keeps_form exampleHost (JStr "a@x.com")
                (fun _ => NetworkFailure (ThrownError "Failed to fetch"))
                typedSqliteWorld eq_refl eq_refl) as (_ & H2 & H3 & _).
  exact (conj H2 H3).
Defined.

(** X17.  A schema that is empty or white space only is not uploaded:
    [handleComplete] shows the toast "Please provide a schema or skip for
    now" and does nothing else, so loading stays as it was, nothing is
    stored and the page does not navigate. *)
Theorem blank_schema_not_uploaded
    (h : Host) (userEmail : JsVal) (net : Request -> FetchOutcome) (w : World) :
  allWhiteSpace (schema (page w)) = true ->
  handleComplete h userEmail net w
  = {| page := page w; localStorage := localStorage w;
       events := events w
                 ++ [ToastError (JStr "Please provide a schema or skip for now")
                                JUndefined None] |}.
Proof.
  intros Hs. unfold handleComplete.
  assert (Hb : isEmpty (trim (schema (page w))) = true)
    by (apply isEmpty_true_iff, trim_empty_iff, Hs).
  now rewrite Hb.
Qed.

Lemma blank_schema_not_uploaded_witness :
  events (handleComplete exampleHost (JStr "a@x.com")
            (fun _ => Response true (Normal (JObj []))) freshSqliteWorld)
  = [ToastError (JStr "Please provide a schema or skip for now") JUndefined None].
Proof.
  exact (f_equal events
           (blank_schema_not_uploaded exampleHost (JStr "a@x.com")
              (fun _ => Response true (Normal (JObj []))) freshSqliteWorld eq_refl)).
Defined.

(** X18.  A schema the server cannot parse: the toast is titled with the
    server's message, and described by "Error: " and the first parse error
    when there is one, else by the server's hint. *)
Theorem parse_failure_toast
    (h : Host) (userEmail : JsVal) (w : World)
    (errorData detail : list (string * JsVal)) :
  allWhiteSpace (schema (page w)) = false ->
  lookupField "detail" errorData = JObj detail ->
  lookupField "error" detail = JStr "schema_parse_failed" ->
  let first := getIndex0Opt (lookupField "parse_errors" detail) in
  events (handleComplete h userEmail
            (fun _ => Response false (Normal (JObj errorData))) w)
  = events w
    ++ [ Fetched (uploadRequest h (schema (page w)) (database (page w)));
         ToastError (lookupField "message" detail)
           (if truthy first then JStr ("Error: " +:+ ToString first)
            else lookupField "hint" detail)
           (Some 8000%Z) ].
Proof.
  intros Hs Hd He first. subst first.
  unfold handleComplete. rewrite (nonblank_not_trimmed_away _ Hs).
  unfold handleComplete_resume, uploadRejected.
  cbn [getProp]. rewrite Hd. cbn [truthy typeofObject andb getPropOpt getProp].
  rewrite He. cbn. now rewrite <- app_assoc.
Qed.

Lemma parse_failure_toast_witness :
  events (handleComplete exampleHost (JStr "a@x.com")
            (fun _ => Response false (Normal (JObj [("detail", JObj parseFailureDetail)])))
            typedSqliteWorld)
  = [ Fetched (uploadRequest exampleHost "CREATE TABLE t (id INT);" "sqlite");
      ToastError (JStr "Could not parse schema") (JStr "Error: line 1: near TABEL")
                 (Some 8000%Z) ].
Proof.
  exact (parse_failure_toast exampleHost (JStr "a@x.com") typedSqliteWorld
           [("detail", JObj parseFailureDetail)] parseFailureDetail
           eq_refl eq_refl eq_refl).
Defined.

(** X19.  The dashboard reads the dialect where the onboarding page wrote
    it: when the session entry parses to something other than [null], the
    initial [databaseType] of the part_008 dashboard is what the onboarding
    page reads for its e-mail, on any storage; so after Skip with a dialect
    selected, the dashboard starts with that dialect. *)
Theorem dashboard_reads_onboarding_dialect
    (h : Host) (session : gmap string string) (user : JsVal) (saved : string)
    (v : JsVal) (w : World) :
  session !! "auth_user" = Some saved ->
  saved <> "" ->
  JSON_parse h saved = Normal v ->
  v <> JNull -> v <> JUndefined ->
  database (page w) <> "" ->
  (forall storage,
     Dashboard008.initialDatabaseType h session storage
     = readDatabase storage (userEmail h session user))
  /\ Dashboard008.initialDatabaseType h session
       (localStorage (handleSkip (userEmail h session user) w))
     = database (page w).
Proof.
  intros Hs Hne Hp Hn Hu Hd.
  assert (Hget : getProp v "email" = Some (getPropOpt v "email"))
    by (destruct v; try reflexivity; congruence).
  assert (Hall : forall storage,
            Dashboard008.initialDatabaseType h session storage
            = readDatabase storage (userEmail h session user)).
  { intros storage. unfold Dashboard008.initialDatabaseType, userEmail, readDatabase,
      selectedDbKey. rewrite Hs, Hp, Hget. destruct saved; [congruence|reflexivity]. }
  split; [exact Hall|].
  rewrite Hall, handleSkip_storage. unfold readDatabase, getItemOr.
  rewrite lookup_insert_eq. destruct (database (page w)); [congruence|reflexivity].
Qed.

Lemma dashboard_reads_onboarding_dialect_witness :
  Dashboard008.initialDatabaseType (AuthActions.host exampleAuthHost)
    {["auth_user" := identityText]}
    (localStorage
       (handleSkip (userEmail (AuthActions.host exampleAuthHost)
                      {["auth_user" := identityText]} JNull)
          typedSqliteWorld))
  = "sqlite".
Proof.
  exact (proj2 (dashboard_reads_onboarding_dialect (AuthActions.host exampleAuthHost)
                  {["auth_user" := identityText]} JNull identityText
                  (JObj [("email", JStr "a@x.com")]) typedSqliteWorld
                  eq_refl ltac:(discriminate) eq_refl
                  ltac:(discriminate) ltac:(discriminate) ltac:(discriminate))).
Defined.

End SaveFacts.

(** ** The sidebar flag *)

Module SidebarFacts.
Import JS Vocabulary Vocabulary2 OnboardingPage Settings SidebarLayout.

(** X20.  Round trip of the sidebar flag: a layout mounted on the storage
    its persisting effect has written starts with the same collapsed state;
    so a click on the collapse button survives a reload, two clicks bring
    the stored flag back, and with nothing stored, or anything other than
    [true], the sidebar starts expanded. *)
Theorem sidebar_flag_round_trip (st : State) (storage : gmap string string) :
  isSidebarCollapsed (initialState (persistEffect st storage)) = isSidebarCollapsed st
  /\ isSidebarCollapsed (initialState (snd (toggleAndPersist st storage)))
     = negb (isSidebarCollapsed st)
  /\ snd (toggleAndPersist (fst (toggleAndPersist st storage))
            (snd (toggleAndPersist st storage)))
     = persistEffect st storage
  /\ (forall stored, storage !! "sidebarCollapsed" = Some stored -> stored <> "true" ->
        isSidebarCollapsed (initialState storage) = false)
  /\ (storage !! "sidebarCollapsed" = None ->
      isSidebarCollapsed (initialState storage) = false).
Proof.
  unfold toggleAndPersist, persistEffect, initialState, toggleSidebar. cbn.
  rewrite !lookup_insert_eq, negb_involutive, insert_insert_eq.
  repeat split.
  - now destruct (isSidebarCollapsed st).
  - now destruct (isSidebarCollapsed st).
  - intros stored -> Hne. now apply String.eqb_neq.
  - now intros ->.
Qed.

Lemma sidebar_key_not_selectedDb (email : JsVal) : "sidebarCollapsed" <> selectedDbKey email.
Proof. unfold selectedDbKey. cbv [String.append]. discriminate. Qed.

Lemma sidebar_key_not_lastSchema (email : JsVal) : "sidebarCollapsed" <> lastSchemaKey email.
Proof. unfold lastSchemaKey. cbv [String.append]. discriminate. Qed.

Lemma sidebar_key_not_onboardingCompleted (email : JsVal) :
  "sidebarCollapsed" <> onboardingCompletedKey email.
Proof. unfold onboardingCompletedKey. cbv [String.append]. discriminate. Qed.

(** X21.  The sidebar flag and the workspace settings do not touch each
    other, whatever the e-mail: persisting the flag changes none of the
    three settings the onboarding page reads, and neither Skip nor a run of
    [handleComplete] changes the state the sidebar starts in. *)
Theorem sidebar_and_settings_apart
    (h : Host) (st : State) (userEmail : JsVal) (net : Request -> FetchOutcome)
    (w : World) :
  OnboardingPage.initialState (persistEffect st (localStorage w)) userEmail
    = OnboardingPage.initialState (localStorage w) userEmail
  /\ initialState (localStorage (handleSkip userEmail w)) = initialState (localStorage w)
  /\ initialState (localStorage (handleComplete h userEmail net w))
     = initialState (localStorage w).
Proof.
  split; [|split].
  - unfold OnboardingPage.initialState, persistEffect, readDatabase, readSchema,
      readCompleted, getItemOr.
    rewrite (lookup_insert_ne _ _ _ _ (sidebar_key_not_selectedDb userEmail)).
    rewrite (lookup_insert_ne _ _ _ _ (sidebar_key_not_lastSchema userEmail)).
    now rewrite (lookup_insert_ne _ _ _ _ (sidebar_key_not_onboardingCompleted userEmail)).
  - rewrite handleSkip_storage. unfold initialState.
    rewrite lookup_insert_ne by apply not_eq_sym, sidebar_key_not_selectedDb.
    now rewrite lookup_insert_ne by apply not_eq_sym, sidebar_key_not_onboardingCompleted.
  - destruct (handleComplete_storage h userEmail net w) as [-> | ->]; [reflexivity|].
    unfold initialState, savedStorage.
    rewrite lookup_insert_ne by apply not_eq_sym, sidebar_key_not_lastSchema.
    rewrite lookup_insert_ne by apply not_eq_sym, sidebar_key_not_selectedDb.
    now rewrite lookup_insert_ne by apply not_eq_sym, sidebar_key_not_onboardingCompleted.
Qed.

End SidebarFacts.

(** ** Names and buttons *)

Module SmallFacts.
Import JS Vocabulary Vocabulary2.

Lemma beforeAt_noAt (s : string) : noAt (Profile.beforeAt s) = true.
Proof.
  induction s as [|c s IH]; [reflexivity|]. cbn.
  destruct (Ascii.eqb c "@") eqn:Hc; [reflexivity|]. cbn. now rewrite Hc, IH.
Qed.

Lemma beforeAt_local (l rest : string) :
  noAt l = true -> Profile.beforeAt (l +:+ String "@" rest) = l.
Proof.
  induction l as [|c l IH]; intros H; [reflexivity|].
  cbn in H. apply andb_true_iff in H as [Hc Hl].
  cbv [String.append]. fold String.append. cbn [Profile.beforeAt].
  apply negb_true_iff in Hc. rewrite Hc. f_equal. now apply IH.
Qed.

Lemma beforeAt_whole (s : string) : noAt s = true -> Profile.beforeAt s = s.
Proof.
  induction s as [|c s IH]; intros H; [reflexivity|].
  cbn in H. apply andb_true_iff in H as [Hc Hs]. cbn.
  apply negb_true_iff in Hc. rewrite Hc. f_equal. now apply IH.
Qed.

(** X22.  For a signed-in user with a non-empty e-mail the profile card
    renders, and its heading is the part of the e-mail before its first
    [@]: it contains no [@], it is the local part of an address of the form
    local [@] rest, and it is the whole e-mail when that has no [@]; the
    address shown is the e-mail itself.  With an empty e-mail the card
    throws instead of rendering, and with no user it shows nothing of the
    user. *)
Theorem profile_name_is_local_part
    (toUpperCase : string -> string) (u : Profile.User) (l rest : string) :
  noAt l = true ->
  Profile.email u <> "" ->
  (exists shown,
     Profile.render toUpperCase (Some u) = Normal (Some shown)
     /\ noAt (Profile.heading shown) = true
     /\ Profile.address shown = Profile.email u
     /\ (Profile.email u = l +:+ String "@" rest -> Profile.heading shown = l)
     /\ (Profile.email u = l -> Profile.heading shown = l))
  /\ (forall n, Profile.render toUpperCase
                  (Some {| Profile.email := ""; Profile.name := n |})
                = Throw ThrownNullRead)
  /\ Profile.render toUpperCase None = Normal None.
Proof.
  intros Hl Hne. split; [|split; reflexivity].
  unfold Profile.render. destruct (Profile.email u) as [|c e] eqn:He; [congruence|].
  eexists. split; [reflexivity|]. cbn [Profile.heading Profile.address].
  split; [apply beforeAt_noAt|]. split; [reflexivity|].
  split; intros H; rewrite H; [now apply beforeAt_local | now apply beforeAt_whole].
Qed.

Lemma profile_name_is_local_part_witness :
  exists shown,
    Profile.render (fun c => c)
      (Some {| Profile.email := "ada@example.com"; Profile.name := None |})
    = Normal (Some shown)
    /\ Profile.heading shown = "ada".
Proof.
  destruct (proj1 (profile_name_is_local_part (fun c => c)
                     {| Profile.email := "ada@example.com"; Profile.name := None |}
                     "ada" "example.com" eq_refl ltac:(discriminate)))
    as (shown & Hr & _ & _ & Hh & _).
  exists shown. exact (conj Hr (Hh eq_refl)).
Defined.

(** X23.  The operation selector marks at most one button: exactly one when
    its value is one of the six codes, none otherwise; and when the value
    is the code of an entry, the button of that entry and no other is
    marked. *)
Theorem selector_marks_one_button (value : string) :
  length (List.filter snd (OperationSelectorView.buttons value))
    = (if existsb (String.eqb value) operationCodes then 1%nat else 0%nat)
  /\ Forall (fun op =>
               List.filter snd
                 (OperationSelectorView.buttons (OperationSelector.value op))
               = [(op, true)])
            OperationSelector.operations.
Proof.
  split.
  - unfold OperationSelectorView.buttons, OperationSelector.operations, operationCodes.
    cbn [map List.filter existsb snd OperationSelector.value].
    destruct (String.eqb value "generate") eqn:H1;
      [apply String.eqb_eq in H1; subst; reflexivity|].
    destruct (String.eqb value "fix") eqn:H2;
      [apply String.eqb_eq in H2; subst; reflexivity|].
    destruct (String.eqb value "explain") eqn:H3;
      [apply String.eqb_eq in H3; subst; reflexivity|].
    destruct (String.eqb value "optimize") eqn:H4;
      [apply String.eqb_eq in H4; subst; reflexivity|].
    destruct (String.eqb value "suggest") eqn:H5;
      [apply String.eqb_eq in H5; subst; reflexivity|].
    destruct (String.eqb value "join") eqn:H6;
      [apply String.eqb_eq in H6; subst; reflexivity|].
    reflexivity.
  - repeat constructor.
Qed.

(** X24.  What the input field announces and what is sent differ for two
    operations: the part_003 input presents the text as a plain-English
    request for [generate], [suggest] and [join] and as SQL otherwise, while
    the part_008 dashboard sends it under [question] for [generate] only;
    so the text is announced as a request but sent under [sql] exactly for
    [suggest] and [join]. *)
Theorem request_label_and_sent_field (operation input db : string) (n : Num) :
  let sentAsSql :=
    existsb (fun kv => String.eqb (fst kv) "sql")
      (sentFields (Dashboard008.payload operation input db n)) in
  let sentAsQuestion :=
    existsb (fun kv => String.eqb (fst kv) "question")
      (sentFields (Dashboard008.payload operation input db n)) in
  sentAsQuestion = String.eqb operation "generate"
  /\ sentAsSql = negb (String.eqb operation "generate")
  /\ QueryInput.isEnglishInput operation && sentAsSql
     = String.eqb operation "suggest" || String.eqb operation "join"
  /\ (QueryInput.label operation = "Your Request"
      <-> QueryInput.isEnglishInput operation = true).
Proof.
  cbv zeta. unfold Dashboard008.payload, QueryInput.label, QueryInput.isEnglishInput.
  destruct (String.eqb operation "generate") eqn:Hg.
  - apply String.eqb_eq in Hg. subst. cbn. repeat split; congruence.
  - destruct (String.eqb operation "suggest") eqn:Hs.
    + apply String.eqb_eq in Hs. subst. destruct n; cbn; repeat split; congruence.
    + cbn. destruct (String.eqb operation "join"); cbn; repeat split; congruence.
Qed.

End SmallFacts.

(** ** More on the count of part_009 and on rejected sign-ins *)

Module MoreFacts.
Import JS Vocabulary Vocabulary2 JSFacts AuthActions.

(** What the number field keeps: a non-zero integer the engine holds
    exactly. *)
Lemma count009_change (value : string) (st : Dashboard009.State) :
  CountField009.exactEntry value = true ->
  exists n,
    Dashboard009.numSuggestions (Dashboard009.numSuggestionsChange value st) = Int n
    /\ n <> 0%Z /\ (Z.abs n <= CountField009.maxSafeInteger)%Z.
Proof.
  unfold CountField009.exactEntry, Dashboard009.numSuggestionsChange. cbn.
  destruct (parseInt value None) as [|z]; cbn.
  - intros _. exists 5%Z. repeat split; [lia | unfold CountField009.maxSafeInteger; lia].
  - intros Hz. apply Z.leb_le in Hz. destruct (z =? 0)%Z eqn:H0; cbn.
    + exists 5%Z. repeat split; [lia | unfold CountField009.maxSafeInteger; lia].
    + exists z. repeat split; [now apply Z.eqb_neq | exact Hz].
Qed.

Lemma count009_step (h : Host) (st st' : Dashboard009.State) :
  CountField009.step h st st' ->
  (exists n, Dashboard009.numSuggestions st = Int n
             /\ n <> 0%Z /\ (Z.abs n <= CountField009.maxSafeInteger)%Z) ->
  exists n, Dashboard009.numSuggestions st' = Int n
            /\ n <> 0%Z /\ (Z.abs n <= CountField009.maxSafeInteger)%Z.
Proof.
  intros Hstep Hinv. destruct Hstep as [st v|st v Hv|st p|st|st op outcome].
  - exact Hinv.
  - now apply count009_change.
  - destruct p as [o|]; cbn; [|exact Hinv]. now destruct (isEmpty o).
  - unfold Dashboard009.handleRunQuery_begin.
    now destruct (DashboardShared.inputIsBlank (Dashboard009.input st)).
  - unfold Dashboard009.handleRunQuery_resume.
    destruct outcome as [e|[] [data|e]]; cbn; try exact Hinv.
    now destruct (if String.eqb op "suggest" then _ else _).
Qed.

(** X25.  In the part_009 dashboard, as long as every entry of the number
    field is one [parseInt] reads exactly (nothing, or an integer of
    magnitude at most 2^53 - 1), the suggestion count is a non-zero integer
    of that range (an empty, unparsable or zero entry becomes 5), and a
    [suggest] run posts that number as [max_suggestions], as typed and
    unclamped. *)
Theorem part009_count_always_a_number
    (h : Host) (st : Dashboard009.State) :
  rtc (CountField009.step h) Dashboard009.initialState st ->
  Dashboard009.operation st = "suggest" ->
  allWhiteSpace (Dashboard009.input st) = false ->
  exists req n,
    snd (Dashboard009.handleRunQuery_begin h st) = Some req
    /\ lookupField "max_suggestions" (body req) = JNum (Int n)
    /\ n <> 0%Z
    /\ (Z.abs n <= CountField009.maxSafeInteger)%Z
    /\ Dashboard009.numSuggestions st = Int n.
Proof.
  intros Hreach.
  assert (Hinv : exists n, Dashboard009.numSuggestions st = Int n
                           /\ n <> 0%Z /\ (Z.abs n <= CountField009.maxSafeInteger)%Z).
  { assert (H0 : exists n, Dashboard009.numSuggestions Dashboard009.initialState = Int n
                           /\ n <> 0%Z
                           /\ (Z.abs n <= CountField009.maxSafeInteger)%Z)
      by (exists 5%Z; repeat split; [lia | unfold CountField009.maxSafeInteger; cbn; lia]).
    revert H0. induction Hreach as [|x y z Hs _ IH]; [tauto|].
    intros Hx. apply IH. exact (count009_step h x y Hs Hx). }
  destruct Hinv as (n & Hn & Hnz & Hb). intros Hop Hin.
  unfold Dashboard009.handleRunQuery_begin. rewrite inputIsBlank_iff, Hin, Hop, Hn.
  eexists. exists n. cbn. repeat split; assumption.
Qed.

Lemma part009_count_always_a_number_witness :
  exists req n,
    snd (Dashboard009.handleRunQuery_begin exampleHost part009_fifteen) = Some req
    /\ lookupField "max_suggestions" (body req) = JNum (Int n)
    /\ n <> 0%Z
    /\ (Z.abs n <= CountField009.maxSafeInteger)%Z
    /\ Dashboard009.numSuggestions part009_fifteen = Int n.
Proof.
  assert (Hreach : rtc (CountField009.step exampleHost) Dashboard009.initialState
                     part009_fifteen).
  { eapply rtc_l; [apply (CountField009.stepSearchParams _ _ (Some "suggest"))|].
    eapply rtc_l; [apply (CountField009.stepInput _ _ "SELECT 1")|].
    eapply rtc_l; [apply (CountField009.stepCount _ _ "15" eq_refl)|]. apply rtc_refl. }
  exact (part009_count_always_a_number exampleHost part009_fifteen Hreach eq_refl eq_refl).
Defined.

(** X26.  What a rejected sign-in or sign-up reports: the promise rejects
    with a non-empty string [detail] of the error body as its message;
    without a truthy [detail], with a non-empty string [message]; and with
    neither, or with a body that is not JSON, with "Login failed"
    (sign-in) or "Signup failed" (sign-up). *)
Theorem rejected_auth_message
    (ah : AuthHost) (email password : string) (w : World) :
  let signInSays json := snd (signIn ah email password (fun _ => Response false json) w) in
  let signUpSays json := snd (signUp ah email password (fun _ => Response false json) w) in
  (forall fields d, lookupField "detail" fields = JStr d -> d <> "" ->
     signInSays (Normal (JObj fields)) = Throw (ThrownError d)
     /\ signUpSays (Normal (JObj fields)) = Throw (ThrownError d))
  /\ (forall fields m, truthy (lookupField "detail" fields) = false ->
        lookupField "message" fields = JStr m -> m <> "" ->
        signInSays (Normal (JObj fields)) = Throw (ThrownError m)
        /\ signUpSays (Normal (JObj fields)) = Throw (ThrownError m))
  /\ (forall fields, truthy (lookupField "detail" fields) = false ->
        truthy (lookupField "message" fields) = false ->
        signInSays (Normal (JObj fields)) = Throw (ThrownError "Login failed")
        /\ signUpSays (Normal (JObj fields)) = Throw (ThrownError "Signup failed"))
  /\ (forall e,
        signInSays (Throw e) = Throw (ThrownError "Login failed")
        /\ signUpSays (Throw e) = Throw (ThrownError "Signup failed")).
Proof.
  cbv zeta. unfold signIn, signUp. cbn [snd].
  repeat split; intros;
    first [ now rewrite (proj1 (AuthFacts.rejection_message _ fields) d)
          | now rewrite (proj1 (proj2 (AuthFacts.rejection_message _ fields)) m)
          | now rewrite (proj1 (proj2 (proj2 (AuthFacts.rejection_message _ fields))))
          | reflexivity ].
Qed.

End MoreFacts.
